(** * The scrape / cache / dedup / verify pipeline

    A shallow embedding of the scraper service ([GoogleMapsScraper]) and of
    the [process-listings] edge function, over an explicit model of the
    store (tables, row-level policies, query builder) and of the network.

    Strings are sequences of characters with codes below 256, read as the
    code points U+0000 to U+00FF, with the case mapping and the white space
    JavaScript has there.  Instants are milliseconds, in [Z]. *)

From Stdlib Require Import ZArith String Ascii Bool List Lia QArith.
From stdpp Require Import base option list gmap strings.

Local Open Scope Z_scope.

(** ** JavaScript string primitives used by the sources *)

Module JsString.

Definition code (c : ascii) : nat := nat_of_ascii c.

(** The characters [toLowerCase] changes: A to Z, and U+00C0 to U+00DE
    without the multiplication sign U+00D7. *)
Definition isUpper (c : ascii) : bool :=
  (Nat.leb 65 (code c) && Nat.leb (code c) 90)
  || (Nat.leb 192 (code c) && Nat.leb (code c) 222
      && negb (Nat.eqb (code c) 215)).

Definition lowerChar (c : ascii) : ascii :=
  if isUpper c then ascii_of_nat (code c + 32) else c.

(** [s.toLowerCase()] *)
Fixpoint toLowerCase (s : string) : string :=
  match s with
  | EmptyString => EmptyString
  | String c s' => String (lowerChar c) (toLowerCase s')
  end.

(** White space and line terminators: TAB, LF, VT, FF, CR, SP, NBSP. *)
Definition isSpace (c : ascii) : bool :=
  (Nat.leb 9 (code c) && Nat.leb (code c) 13)
  || Nat.eqb (code c) 32 || Nat.eqb (code c) 160.

Definition isEmpty (s : string) : bool :=
  match s with EmptyString => true | String _ _ => false end.

Fixpoint trimStart (s : string) : string :=
  match s with
  | EmptyString => EmptyString
  | String c s' => if isSpace c then trimStart s' else s
  end.

Fixpoint trimEnd (s : string) : string :=
  match s with
  | EmptyString => EmptyString
  | String c s' =>
      let t := trimEnd s' in
      if isSpace c && isEmpty t then EmptyString else String c t
  end.

(** [s.trim()] *)
Definition trim (s : string) : string := trimEnd (trimStart s).

(** [s.startsWith(p)] *)
Definition startsWith (s p : string) : bool := String.prefix p s.

(** JavaScript truthiness of a nullable string: [null] and the empty
    string are falsy. *)
Definition truthy (o : option string) : bool :=
  match o with
  | Some s => negb (isEmpty s)
  | None => false
  end.

(** [o || ""] on a nullable string. *)
Definition orEmpty (o : option string) : string :=
  match o with
  | Some s => s
  | None => EmptyString
  end.

End JsString.

(** ** The store: tables, row-level policies and the query builder *)

Module Store.

(** Row identifiers ([uuid]) and instants ([timestamptz], milliseconds). *)
Definition Id := nat.
Definition Instant := Z.

(** [interval '7 days'], the default life of a [search_cache] row. *)
Definition sevenDays : Z := 7 * 24 * 60 * 60 * 1000.

Inductive SessionStatus := Running | Paused | Completed | Failed.
Inductive ProcessingStatus := Pending | ProcessingCompleted.

(** A JSON value other than [null] ([jsonb] in the tables, [any] in the
    page); an object or an array is given by its text. *)
Inductive Json :=
| JBool (b : bool)
| JNumber (q : Q)
| JString (s : string)
| JObject (text : string).

(** [scraping_sessions] *)
Module Session.
Record t := {
  user_id : option Id;
  business_type : string;
  location : string;
  search_query : option string;
  status : SessionStatus;
  total_records : Z;
  processing_status : ProcessingStatus;
  completed_at : option Instant
}.
End Session.

(** A listing as the source adapter returns it. *)
Module Scraped.
Record t := {
  name : string;
  description : option string;
  rating : option Q;
  reviews : option Z;
  type : option string;
  website : option string;
  address : option string;
  phone : option string;
  latitude : option Q;
  longitude : option Q;
  opening_hours : option Json;
  price_level : option string;
  thumbnail : option string;
  place_id : option string
}.
End Scraped.

(** [listings], the raw rows. *)
Module Listing.
Record t := {
  id : Id;
  session_id : Id;
  name : string;
  description : option string;
  rating : option Q;
  reviews : option Z;
  type : option string;
  website : option string;
  raw_website : option string;
  address : option string;
  phone : option string;
  latitude : option Q;
  longitude : option Q;
  opening_hours : option Json;
  price_level : option string;
  thumbnail : option string;
  place_id : option string
}.
End Listing.

(** [processed_listings] *)
Module Processed.
Record t := {
  session_id : Id;
  name : string;
  rating : option Q;
  website : option string;
  address : option string;
  phone : option string;
  is_website_verified : bool;
  website_status_code : Z;
  is_duplicate : bool
}.
End Processed.

(** [search_cache] *)
Module Cache.
Record t := {
  user_id : Id;
  search_query : string;
  business_type : string;
  location : string;
  session_id : Id;
  result_count : Z;
  cached_at : Instant;
  expires_at : Instant
}.
End Cache.

Record DB := {
  scraping_sessions : gmap Id Session.t;
  listings : list Listing.t;
  processed_listings : list Processed.t;
  search_cache : list Cache.t;
  next_id : Id
}.

Definition empty : DB :=
  {| scraping_sessions := ∅; listings := []; processed_listings := [];
     search_cache := []; next_id := 0%nat |}.

(** What a request answers: [{ data, error }]. *)
Inductive Reply (A : Type) :=
| Data (a : A)
| Error (message : string).
Arguments Data {A} a.
Arguments Error {A} message.

Definition requestFailed : string := "request failed".
Definition policyViolation : string :=
  "new row violates row-level security policy".
Definition notSingle : string :=
  "JSON object requested, multiple (or no) rows returned".

(** [.maybeSingle()]: no row is [null], one row is that row, more rows are
    an error. *)
Definition maybeSingle {A} (rows : list A) : Reply (option A) :=
  match rows with
  | [] => Data None
  | [row] => Data (Some row)
  | _ :: _ :: _ => Error notSingle
  end.

(** The policy shared by [listings], [processed_listings] and
    [search_cache]: the row's session belongs to the caller. *)
Definition ownsSession (db : DB) (uid : Id) (sid : Id) : bool :=
  match scraping_sessions db !! sid with
  | Some s => bool_decide (Session.user_id s = Some uid)
  | None => false
  end.

(** *** Requests of the browser client, subject to the policies.

    A query builder is a thenable: the request leaves the client when
    [then] is called on it, which [await] does.  Each function below is one
    awaited request; [ok] tells whether the request reached the store and
    was answered. *)

(** [from('scraping_sessions').insert(row).select().single()] *)
Definition insertSession (uid : Id) (ok : bool) (row : Session.t) (db : DB)
  : Reply Id * DB :=
  if negb ok then (Error requestFailed, db)
  else if bool_decide (Session.user_id row = Some uid) then
    let id := next_id db in
    (Data id,
     {| scraping_sessions := <[id := row]> (scraping_sessions db);
        listings := listings db;
        processed_listings := processed_listings db;
        search_cache := search_cache db;
        next_id := S id |})
  else (Error policyViolation, db).

(** [from('scraping_sessions').update(..).eq('id', sid)]: rows the caller
    may not see are not touched, which is no error. *)
Definition updateSession (uid : Id) (ok : bool) (sid : Id)
    (f : Session.t -> Session.t) (db : DB) : DB :=
  if ok && ownsSession db uid sid then
    {| scraping_sessions := alter f sid (scraping_sessions db);
       listings := listings db;
       processed_listings := processed_listings db;
       search_cache := search_cache db;
       next_id := next_id db |}
  else db.

(** [from('scraping_sessions').select(..).eq('id', sid).maybeSingle()],
    reduced to its [data]. *)
Definition selectSession (uid : Id) (ok : bool) (sid : Id) (db : DB)
  : option Session.t :=
  if ok && ownsSession db uid sid then scraping_sessions db !! sid else None.

Definition listingOf (id sid : Id) (l : Scraped.t) : Listing.t :=
  {| Listing.id := id;
     Listing.session_id := sid;
     Listing.name := Scraped.name l;
     Listing.description := Scraped.description l;
     Listing.rating := Scraped.rating l;
     Listing.reviews := Scraped.reviews l;
     Listing.type := Scraped.type l;
     Listing.website := Scraped.website l;
     Listing.raw_website := Scraped.website l;
     Listing.address := Scraped.address l;
     Listing.phone := Scraped.phone l;
     Listing.latitude := Scraped.latitude l;
     Listing.longitude := Scraped.longitude l;
     Listing.opening_hours := Scraped.opening_hours l;
     Listing.price_level := Scraped.price_level l;
     Listing.thumbnail := Scraped.thumbnail l;
     Listing.place_id := Scraped.place_id l |}.

(** [from('listings').insert({session_id: sid, ..}).select().single()] *)
Definition insertListing (uid : Id) (ok : bool) (sid : Id) (l : Scraped.t)
    (db : DB) : Reply Listing.t * DB :=
  if negb ok then (Error requestFailed, db)
  else if ownsSession db uid sid then
    let row := listingOf (next_id db) sid l in
    (Data row,
     {| scraping_sessions := scraping_sessions db;
        listings := listings db ++ [row];
        processed_listings := processed_listings db;
        search_cache := search_cache db;
        next_id := S (next_id db) |})
  else (Error policyViolation, db).

(** [from('search_cache').insert({..})]; [cached_at] and [expires_at] take
    their column defaults, [now()] and [now() + interval '7 days']. *)
Definition insertCache (uid : Id) (ok : bool) (now : Instant)
    (user : Id) (query businessType loc : string) (sid : Id) (count : Z)
    (db : DB) : DB :=
  if ok && ownsSession db uid sid then
    {| scraping_sessions := scraping_sessions db;
       listings := listings db;
       processed_listings := processed_listings db;
       search_cache := search_cache db ++
         [{| Cache.user_id := user; Cache.search_query := query;
             Cache.business_type := businessType; Cache.location := loc;
             Cache.session_id := sid; Cache.result_count := count;
             Cache.cached_at := now; Cache.expires_at := now + sevenDays |}];
       next_id := next_id db |}
  else db.

(** The rows of [search_cache] answering
    [.eq('search_query', q).gt('expires_at', now)] for caller [uid]. *)
Definition cacheMatches (uid : Id) (q : string) (now : Instant) (db : DB)
  : list Cache.t :=
  filter (fun c => ownsSession db uid (Cache.session_id c) = true
                   ∧ Cache.search_query c = q
                   ∧ now < Cache.expires_at c)
         (search_cache db).

(** [from('search_cache').select('*').eq(..).gt(..).maybeSingle()] *)
Definition selectCache (uid : Id) (ok : bool) (q : string) (now : Instant)
    (db : DB) : Reply (option Cache.t) :=
  if ok then maybeSingle (cacheMatches uid q now db)
  else Error requestFailed.

(** *** Requests of the edge function, which holds the service role: the
    policies do not apply to it. *)

(** The rows of [listings] of one session, in the order of their insertion
    (the order in which the store scans a table that is only appended to). *)
Definition sessionListings (sid : Id) (db : DB) : list Listing.t :=
  filter (fun l => Listing.session_id l = sid) (listings db).

(** [from('listings').select('*').eq('session_id', sid)] *)
Definition selectListings (ok : bool) (sid : Id) (db : DB)
  : Reply (list Listing.t) :=
  if ok then Data (sessionListings sid db) else Error requestFailed.

(** Column reads on the row of one session. *)
Definition processingStatusOf (sid : Id) (db : DB) : option ProcessingStatus :=
  Session.processing_status <$> scraping_sessions db !! sid.

Definition statusOf (sid : Id) (db : DB) : option SessionStatus :=
  Session.status <$> scraping_sessions db !! sid.

Definition completedAtOf (sid : Id) (db : DB) : option (option Instant) :=
  Session.completed_at <$> scraping_sessions db !! sid.

Definition totalRecordsOf (sid : Id) (db : DB) : option Z :=
  Session.total_records <$> scraping_sessions db !! sid.

(** [from('processed_listings').insert(rows)]: the batch is one statement,
    written whole or not at all. *)
Definition insertProcessed (ok : bool) (rows : list Processed.t) (db : DB)
  : Reply unit * DB :=
  if ok then
    (Data tt,
     {| scraping_sessions := scraping_sessions db;
        listings := listings db;
        processed_listings := processed_listings db ++ rows;
        search_cache := search_cache db;
        next_id := next_id db |})
  else (Error requestFailed, db).

(** [from('scraping_sessions').update({processing_status: 'completed'})
    .eq('id', sid)] *)
Definition markProcessed (ok : bool) (sid : Id) (db : DB) : DB :=
  if ok then
    {| scraping_sessions :=
         alter (fun s =>
           {| Session.user_id := Session.user_id s;
              Session.business_type := Session.business_type s;
              Session.location := Session.location s;
              Session.search_query := Session.search_query s;
              Session.status := Session.status s;
              Session.total_records := Session.total_records s;
              Session.processing_status := ProcessingCompleted;
              Session.completed_at := Session.completed_at s |})
           sid (scraping_sessions db);
       listings := listings db;
       processed_listings := processed_listings db;
       search_cache := search_cache db;
       next_id := next_id db |}
  else db.

End Store.

(** ** The [process-listings] edge function: dedup and website verification *)

Module ProcessListings.
Import JsString Store.

(** The outbound website check, [fetch(url, {method, signal, redirect})];
    the abort signal fires after [timeout] milliseconds. *)
Record Request := {
  url : string;
  method : string;
  redirect : string;
  timeout : Z
}.

(** A [fetch] resolves with a response or rejects (network error, abort
    at the deadline, malformed address). *)
Inductive FetchOutcome :=
| Responded (status : Z)
| Rejected (message : string).

(** What the engine did with one listing. *)
Record Iteration := {
  isDuplicate : bool;
  request : option Request;
  outcome : option FetchOutcome;
  isWebsiteVerified : bool;
  websiteStatusCode : Z;
  pushed : option Processed.t
}.

(** The body of the HTTP response. *)
Inductive Response :=
| NoListings (processed : Z) (message : string)
| Summary (processed total duplicatesRemoved : Z)
| Failure (error : string).

Definition success (r : Response) : bool :=
  match r with
  | NoListings _ _ | Summary _ _ _ => true
  | Failure _ => false
  end.

(** Field reads on the response body; an absent field is [undefined]. *)
Definition processedOf (r : Response) : option Z :=
  match r with
  | NoListings p _ | Summary p _ _ => Some p
  | Failure _ => None
  end.

Definition totalOf (r : Response) : option Z :=
  match r with
  | Summary _ t _ => Some t
  | NoListings _ _ | Failure _ => None
  end.

Definition duplicatesRemovedOf (r : Response) : option Z :=
  match r with
  | Summary _ _ d => Some d
  | NoListings _ _ | Failure _ => None
  end.

(** Which of the three store requests of a run are answered. *)
Record Faults := {
  selectOk : bool;
  insertOk : bool;
  updateOk : bool
}.

Definition noFaults : Faults :=
  {| selectOk := true; insertOk := true; updateOk := true |}.

(** [`${normalizedName}|${normalizedAddress}`] *)
Definition companyKey (listing : Listing.t) : string :=
  let normalizedName := trim (toLowerCase (Listing.name listing)) in
  let normalizedAddress :=
    trim (toLowerCase (orEmpty (Listing.address listing))) in
  normalizedName +:+ "|" +:+ normalizedAddress.

(** [listing.website.startsWith("http") ? listing.website
                                        : `https://${listing.website}`] *)
Definition websiteUrl (website : string) : string :=
  if startsWith website "http" then website else "https://" +:+ website.

Definition headRequest (website : string) : Request :=
  {| url := websiteUrl website; method := "HEAD"; redirect := "follow";
     timeout := 5000 |}.

(** [response.status >= 200 && response.status < 400] *)
Definition live (status : Z) : bool := (200 <=? status) && (status <? 400).

Section Engine.
Context {W : Type}.
(** The network: the answer to a request and the network afterwards. *)
Variable fetch : W -> Request -> FetchOutcome * W.

(** The variables of the loop, [seenCompanies], [processedListings] and the
    network, together with [iterations], the log of what was done with each
    listing so far (the log is not a variable of the source). *)
Record LoopState := {
  seenCompanies : gmap string bool;
  processedListings : list Processed.t;
  world : W;
  iterations : list Iteration
}.

(** [m.has(k)] *)
Definition has (m : gmap string bool) (k : string) : bool :=
  match m !! k with Some _ => true | None => false end.

(** The body of [for (const listing of listings)] up to the decision to
    push: what is done with [listing], given the keys seen so far. *)
Definition visit (sessionId : Id) (seen : gmap string bool) (w : W)
    (listing : Listing.t) : Iteration * W :=
  let dup := has seen (companyKey listing) in
  let '(req, out, verified, code, w1) :=
    if truthy (Listing.website listing) && negb dup then
      let r := headRequest (orEmpty (Listing.website listing)) in
      match fetch w r with
      | (Responded status, w') =>
          (Some r, Some (Responded status), live status, status, w')
      | (Rejected message, w') =>
          (Some r, Some (Rejected message), false, 0, w')
      end
    else (None, None, false, 0, w) in
  let row :=
    if negb dup && verified then
      Some {| Processed.session_id := sessionId;
              Processed.name := Listing.name listing;
              Processed.rating := Listing.rating listing;
              Processed.website := Listing.website listing;
              Processed.address := Listing.address listing;
              Processed.phone := Listing.phone listing;
              Processed.is_website_verified := verified;
              Processed.website_status_code := code;
              Processed.is_duplicate := false |}
    else None in
  ({| isDuplicate := dup; request := req; outcome := out;
      isWebsiteVerified := verified; websiteStatusCode := code;
      pushed := row |}, w1).

(** One turn of the loop on its variables. *)
Definition loopBody (sessionId : Id) (st : LoopState)
    (listing : Listing.t) : LoopState :=
  let '(it, w) := visit sessionId (seenCompanies st) (world st) listing in
  {| seenCompanies :=
       if negb (isDuplicate it)
       then <[companyKey listing := true]> (seenCompanies st)
       else seenCompanies st;
     processedListings := processedListings st ++ option_list (pushed it);
     world := w;
     iterations := iterations st ++ [it] |}.

Definition forLoop (sessionId : Id) (st : LoopState)
    (listings : list Listing.t) : LoopState :=
  fold_left (loopBody sessionId) listings st.

Definition initial (w : W) : LoopState :=
  {| seenCompanies := ∅; processedListings := []; world := w;
     iterations := [] |}.

(** What a run of the handler leaves behind. *)
Record Run := {
  response : Response;
  store : DB;
  network : W;
  trace : list Iteration
}.

(** The handler, from the parsed request body on.  [error.message] is
    never empty here, so the fallback text of the [catch] is not needed. *)
Definition handler (faults : Faults) (db : DB) (w : W) (sessionId : Id)
  : Run :=
  match selectListings (selectOk faults) sessionId db with
  | Error message =>
      {| response := Failure message; store := db; network := w;
         trace := [] |}
  | Data [] =>
      {| response := NoListings 0 "No listings to process"; store := db;
         network := w; trace := [] |}
  | Data listings =>
      let st := forLoop sessionId (initial w) listings in
      let batch := processedListings st in
      let inserted :=
        match batch with
        | [] => (Data tt, db)
        | _ :: _ => insertProcessed (insertOk faults) batch db
        end in
      match inserted with
      | (Error message, db') =>
          {| response := Failure message; store := db';
             network := world st; trace := iterations st |}
      | (Data _, db') =>
          {| response :=
               Summary (Z.of_nat (length batch))
                       (Z.of_nat (length listings))
                       (Z.of_nat (length listings)
                        - Z.of_nat (length batch));
             store := markProcessed (updateOk faults) sessionId db';
             network := world st; trace := iterations st |}
      end
  end.

End Engine.

End ProcessListings.

(** ** The scraper service: cache lookup, session life cycle, ingestion *)

Module Scraper.
Import JsString Store.

(** The fields of a [GoogleMapsScraper]; [abortController] holds the
    [aborted] flag of its signal once a controller exists. *)
Record t := {
  sessionId : option Id;
  isRunning : bool;
  isPaused : bool;
  abortController : option bool;
  userId : option Id
}.

Definition create : t :=
  {| sessionId := None; isRunning := false; isPaused := false;
     abortController := None; userId := None |}.

(** [this.abortController?.signal.aborted], as a condition. *)
Definition aborted (s : t) : bool :=
  match abortController s with
  | Some flag => flag
  | None => false
  end.

(** [`${businessType.toLowerCase().trim()}|${location.toLowerCase().trim()}`] *)
Definition searchQuery (businessType location : string) : string :=
  trim (toLowerCase businessType) +:+ "|" +:+ trim (toLowerCase location).

Definition checkCache (uid : Id) (ok : bool) (now : Instant) (db : DB)
    (businessType location : string) : option Id :=
  match selectCache uid ok (searchQuery businessType location) now db with
  | Error _ => None
  | Data (Some data) => Some (Cache.session_id data)
  | Data None => None
  end.

Definition startSession (uid : Id) (ok : bool) (db : DB) (s : t)
    (businessType location : string) (user : Id) : Reply Id * t * DB :=
  let s1 :=
    {| sessionId := sessionId s; isRunning := isRunning s;
       isPaused := isPaused s; abortController := abortController s;
       userId := Some user |} in
  let row :=
    {| Session.user_id := Some user;
       Session.business_type := businessType;
       Session.location := location;
       Session.search_query := Some (searchQuery businessType location);
       Session.status := Running;
       Session.total_records := 0;
       Session.processing_status := Pending;
       Session.completed_at := None |} in
  match insertSession uid ok row db with
  | (Error message, db') => (Error message, s1, db')
  | (Data id, db') =>
      (Data id,
       {| sessionId := Some id; isRunning := true; isPaused := false;
          abortController := Some false; userId := Some user |},
       db')
  end.

Definition setStatus (st : SessionStatus) (s : Session.t) : Session.t :=
  {| Session.user_id := Session.user_id s;
     Session.business_type := Session.business_type s;
     Session.location := Session.location s;
     Session.search_query := Session.search_query s;
     Session.status := st;
     Session.total_records := Session.total_records s;
     Session.processing_status := Session.processing_status s;
     Session.completed_at := Session.completed_at s |}.

Definition setCompleted (now : Instant) (s : Session.t) : Session.t :=
  {| Session.user_id := Session.user_id s;
     Session.business_type := Session.business_type s;
     Session.location := Session.location s;
     Session.search_query := Session.search_query s;
     Session.status := Completed;
     Session.total_records := Session.total_records s;
     Session.processing_status := Session.processing_status s;
     Session.completed_at := Some now |}.

Definition setTotal (n : Z) (s : Session.t) : Session.t :=
  {| Session.user_id := Session.user_id s;
     Session.business_type := Session.business_type s;
     Session.location := Session.location s;
     Session.search_query := Session.search_query s;
     Session.status := Session.status s;
     Session.total_records := n;
     Session.processing_status := Session.processing_status s;
     Session.completed_at := Session.completed_at s |}.

(** A request that was built with [from(..).update(..).eq('id', ..)].
    Nothing is sent before it is awaited. *)
Inductive Builder :=
| SessionUpdate (sid : Id) (change : Session.t -> Session.t).

Definition await (uid : Id) (ok : bool) (b : Builder) (db : DB) : DB :=
  match b with
  | SessionUpdate sid change => updateSession uid ok sid change db
  end.

(** [pause], [resume] and [stop] change the fields and, when a session
    exists, build an update of its row with
    [supabase.from('scraping_sessions').update(..).eq('id', ..)].  The
    statement stops there: the builder is neither awaited nor given a
    [then], so it is returned here as the value the statement leaves
    unused, and the store is no argument of these methods. *)
Definition pause (s : t) : t * option Builder :=
  ({| sessionId := sessionId s; isRunning := isRunning s; isPaused := true;
      abortController := abortController s; userId := userId s |},
   match sessionId s with
   | Some sid => Some (SessionUpdate sid (setStatus Paused))
   | None => None
   end).

Definition resume (s : t) : t * option Builder :=
  ({| sessionId := sessionId s; isRunning := isRunning s; isPaused := false;
      abortController := abortController s; userId := userId s |},
   match sessionId s with
   | Some sid => Some (SessionUpdate sid (setStatus Running))
   | None => None
   end).

Definition stop (now : Instant) (s : t) : t * option Builder :=
  ({| sessionId := sessionId s; isRunning := false; isPaused := isPaused s;
      abortController :=
        match abortController s with
        | Some _ => Some true
        | None => None
        end;
      userId := userId s |},
   match sessionId s with
   | Some sid => Some (SessionUpdate sid (setCompleted now))
   | None => None
   end).

(** What the user does while the ingestion is suspended. *)
Inductive UiEvent := PauseClicked | ResumeClicked | StopClicked.

(** The handlers of the three buttons call the method and use nothing of
    what it built. *)
Definition react (now : Instant) (s : t) (e : UiEvent) : t :=
  match e with
  | PauseClicked => fst (pause s)
  | ResumeClicked => fst (resume s)
  | StopClicked => fst (stop now s)
  end.

(** One suspension point of the ingestion: the clicks handled while it is
    suspended, and whether the awaited request, if it is one, is answered. *)
Record Tick := {
  clicks : list UiEvent;
  ok : bool
}.

Definition quiet : Tick := {| clicks := []; ok := true |}.

Definition during (now : Instant) (tk : Tick) (s : t) : t :=
  fold_left (react now) (clicks tk) s.

(** The suspension points to come; past the end of the list nothing
    happens any more. *)
Definition next (env : list Tick) : Tick * list Tick :=
  match env with
  | [] => (quiet, [])
  | tk :: env' => (tk, env')
  end.

(** [while (this.isPaused) { await 100ms; if (aborted) break; }];
    [None] when the scraper stays paused and nothing happens any more. *)
Fixpoint whilePaused (now : Instant) (env : list Tick) (s : t)
  : option (list Tick * t) :=
  match env with
  | [] => if isPaused s then None else Some ([], s)
  | tk :: env' =>
      if isPaused s then
        let s' := during now tk s in
        if aborted s' then Some (env', s') else whilePaused now env' s'
      else Some (env, s)
  end.

Record Ingestion := {
  scraper : t;
  db : DB;
  env : list Tick;
  progress : list Listing.t
}.

(** [for (let i = 0; i < listings.length; i++)], from index [i] on, over
    the listings not yet visited. *)
Fixpoint forLoop (uid : Id) (now : Instant) (sid : Id)
    (listings : list Scraped.t) (i : Z) (st : Ingestion)
  : option Ingestion :=
  match listings with
  | [] => Some st
  | listing :: rest =>
      if aborted (scraper st) then Some st
      else
        match whilePaused now (env st) (scraper st) with
        | None => None
        | Some (env1, s1) =>
            if aborted s1 then
              Some {| scraper := s1; db := db st; env := env1;
                      progress := progress st |}
            else
              let '(delay, env2) := next env1 in
              let s2 := during now delay s1 in
              let '(ins, env3) := next env2 in
              let '(reply, db3) :=
                insertListing uid (ok ins) sid listing (db st) in
              let s3 := during now ins s2 in
              match reply with
              | Error _ =>
                  forLoop uid now sid rest (i + 1)
                    {| scraper := s3; db := db3; env := env3;
                       progress := progress st |}
              | Data data =>
                  let '(upd, env4) := next env3 in
                  let db4 :=
                    await uid (ok upd)
                      (SessionUpdate sid (setTotal (i + 1))) db3 in
                  let s4 := during now upd s3 in
                  forLoop uid now sid rest (i + 1)
                    {| scraper := s4; db := db4; env := env4;
                       progress := progress st ++ [data] |}
              end
        end
  end.

Definition completeSession (uid : Id) (now : Instant) (st : Ingestion)
  : Ingestion :=
  let st' :=
    match sessionId (scraper st), userId (scraper st) with
    | Some sid, Some user =>
        let '(upd, env1) := next (env st) in
        let db1 :=
          await uid (ok upd) (SessionUpdate sid (setCompleted now))
            (db st) in
        let s1 := during now upd (scraper st) in
        let '(sel, env2) := next env1 in
        let session := selectSession uid (ok sel) sid db1 in
        let s2 := during now sel s1 in
        match session with
        | Some row =>
            let '(ins, env3) := next env2 in
            let db3 :=
              match Session.search_query row with
              | Some query =>
                  insertCache uid (ok ins) now user query
                    (Session.business_type row) (Session.location row)
                    sid (Session.total_records row) db1
              | None => db1
              end in
            {| scraper := during now ins s2; db := db3; env := env3;
               progress := progress st |}
        | None =>
            {| scraper := s2; db := db1; env := env2;
               progress := progress st |}
        end
    | _, _ => st
    end in
  {| scraper :=
       {| sessionId := sessionId (scraper st');
          isRunning := false;
          isPaused := isPaused (scraper st');
          abortController := abortController (scraper st');
          userId := userId (scraper st') |};
     db := db st'; env := env st'; progress := progress st' |}.

(** What the listing source adapter answered. *)
Inductive Adapter :=
| Unreachable (message : string)
| NotOk
| Unsuccessful (error : option string)
| Successful (listings : option (list Scraped.t)).

Inductive Outcome :=
| Threw (message : string) (s : t) (d : DB)
| Returned (st : Ingestion) (processRequested : option Id).

(** [processListings] posts the session to the [process-listings]
    function; the two suspension points are the request and the reading
    of its body.  The scraper does nothing with the answer.  What the
    function does on that request, [ProcessListings.handler], is the work
    of the function and not of the scraper: the store of the result is the
    store as the requests of the scraper have left it, and the session the
    function was asked to process is returned beside it, so that the
    tables the function writes, [processed_listings] and
    [processing_status], are read after its handler has run on that
    store. *)
Definition processListings (now : Instant) (st : Ingestion)
  : Ingestion * option Id :=
  match sessionId (scraper st) with
  | None => (st, None)
  | Some sid =>
      let '(post, env1) := next (env st) in
      let s1 := during now post (scraper st) in
      if ok post then
        let '(body, env2) := next env1 in
        ({| scraper := during now body s1; db := db st; env := env2;
            progress := progress st |}, Some sid)
      else
        ({| scraper := s1; db := db st; env := env1;
            progress := progress st |}, Some sid)
  end.

(** [scrapeListings]; [None] when the run never returns (paused for ever).
    [this.sessionId] is not assigned during a run, so it is read once. *)
Definition scrapeListings (uid : Id) (now : Instant) (adapter : Adapter)
    (env0 : list Tick) (s : t) (d : DB) : option Outcome :=
  match sessionId s with
  | None => Some (Threw "Session not started" s d)
  | Some sid =>
      let '(post, env1) := next env0 in
      let s1 := during now post s in
      match adapter with
      | Unreachable message => Some (Threw message s1 d)
      | NotOk =>
          Some (Threw "Failed to fetch listings from SearchAPI" s1 d)
      | Unsuccessful error =>
          let '(body, env2) := next env1 in
          Some (Threw (if truthy error then orEmpty error
                       else "Failed to scrape listings")
                      (during now body s1) d)
      | Successful result =>
          let '(body, env2) := next env1 in
          let listings := match result with Some l => l | None => [] end in
          match forLoop uid now sid listings 0
                  {| scraper := during now body s1; db := d; env := env2;
                     progress := [] |} with
          | None => None
          | Some st =>
              if negb (aborted (scraper st)) then
                let st1 := completeSession uid now st in
                let '(st2, requested) := processListings now st1 in
                Some (Returned st2 requested)
              else Some (Returned st None)
          end
      end
  end.

End Scraper.


(** ** The notions the specification is written in *)

Module Spec.
Import JsString Store.

(** The dedup key in the specification's words:
    [lower(trim(name)) + "|" + lower(trim(address or ""))]. *)
Definition dedupKey (l : Listing.t) : string :=
  toLowerCase (trim (Listing.name l)) +:+ "|" +:+
  toLowerCase (trim (orEmpty (Listing.address l))).

(** The query normalization in the specification's words:
    [lower(trim(business_type)) + "|" + lower(trim(location))]. *)
Definition normalizedQuery (businessType location : string) : string :=
  toLowerCase (trim businessType) +:+ "|" +:+ toLowerCase (trim location).

(** Listing [i] of [ls] is the first one, in ingestion order, of its dedup
    group. *)
Definition firstOccurrence (ls : list Listing.t) (i : nat) : Prop :=
  exists l, ls !! i = Some l /\
    forall j l', (j < i)%nat -> ls !! j = Some l' -> dedupKey l' <> dedupKey l.

Definition isAlpha (c : ascii) : bool :=
  let n := nat_of_ascii c in
  (Nat.leb 65 n && Nat.leb n 90) || (Nat.leb 97 n && Nat.leb n 122).

Definition isSchemeChar (c : ascii) : bool :=
  let n := nat_of_ascii c in
  isAlpha c || (Nat.leb 48 n && Nat.leb n 57)
  || Nat.eqb n 43 || Nat.eqb n 45 || Nat.eqb n 46.

Fixpoint schemeRest (s : string) : bool :=
  match s with
  | EmptyString => false
  | String c s' =>
      if Nat.eqb (nat_of_ascii c) 58 then true
      else isSchemeChar c && schemeRest s'
  end.

(** A scheme is present in an address that starts with a letter, goes on
    with letters, digits, [+], [-] or [.], and then has a colon. *)
Definition hasScheme (s : string) : bool :=
  match s with
  | EmptyString => false
  | String c s' => isAlpha c && schemeRest s'
  end.

(** Suspension points at which every request is answered and nobody
    clicks stop. *)
Definition undisturbed (env : list Scraper.Tick) : Prop :=
  Forall (fun tk => Scraper.ok tk = true
                    /\ Scraper.StopClicked ∉ Scraper.clicks tk) env.

(** A status code that counts as verified: in [200,400). *)
Definition verifiedStatus (status : Z) : Prop := 200 <= status < 400.


Section Policy.
Context {W : Type}.
Variable fetch :
  W -> ProcessListings.Request -> ProcessListings.FetchOutcome * W.




End Policy.


End Spec.

(** ** Concrete stores, networks and runs used below *)

Module Cases.
Import JsString Store ProcessListings.

Definition session (user : Id) (businessType loc : string) : Session.t :=
  {| Session.user_id := Some user;
     Session.business_type := businessType;
     Session.location := loc;
     Session.search_query := Some (Scraper.searchQuery businessType loc);
     Session.status := Completed;
     Session.total_records := 0;
     Session.processing_status := Pending;
     Session.completed_at := Some 1000 |}.

Definition scraped (name : string) (address website : option string)
  : Scraped.t :=
  {| Scraped.name := name; Scraped.description := None;
     Scraped.rating := None; Scraped.reviews := None; Scraped.type := None;
     Scraped.website := website; Scraped.address := address;
     Scraped.phone := None; Scraped.latitude := None;
     Scraped.longitude := None; Scraped.opening_hours := None;
     Scraped.price_level := None; Scraped.thumbnail := None;
     Scraped.place_id := None |}.

Definition withListings (sid : Id) (ls : list Scraped.t) : DB :=
  {| scraping_sessions := {[ sid := session 1%nat "cafe" "springfield" ]};
     listings := imap (fun i l => listingOf (S sid + i)%nat sid l) ls;
     processed_listings := [];
     search_cache := [];
     next_id := (S sid + length ls)%nat |}.

(** Two listings of one company, spelled differently, and a third company. *)
Definition acme : DB :=
  withListings 0%nat
    [scraped "Acme Cafe" (Some "1 Main St") (Some "acme.example");
     scraped "  ACME cafe " (Some "1 main st  ") (Some "https://acme.example");
     scraped "Other Shop" (Some "2 Side St") (Some "other.example")].

(** A session without a single raw listing. *)
Definition bare : DB := withListings 0%nat [].

(** A listing whose website starts with the letters [http] and has no
    scheme. *)
Definition httpbin : DB :=
  withListings 0%nat [scraped "Bin" (Some "3 Hill Rd") (Some "httpbin.org")].

(** A network on which the addresses of [sites] answer 200 and every other
    request is rejected. *)
Definition liveSites (sites : list string) (w : unit) (r : Request)
  : FetchOutcome * unit :=
  (if bool_decide (url r ∈ sites) then Responded 200
   else Rejected "unreachable", w).

Definition insertFails : Faults :=
  {| selectOk := true; insertOk := false; updateOk := true |}.

Definition selectFails : Faults :=
  {| selectOk := false; insertOk := true; updateOk := true |}.

Definition updateFails : Faults :=
  {| selectOk := true; insertOk := true; updateOk := false |}.

Definition acmeLive : unit -> Request -> FetchOutcome * unit :=
  liveSites ["https://acme.example"].

Definition nothingLive : unit -> Request -> FetchOutcome * unit :=
  liveSites [].

(** *** Runs of the scraper *)

Import Scraper.

(** What a run left in the store, and whether it asked for processing. *)
Definition storeAfter (o : option Outcome) : option DB :=
  match o with
  | Some (Returned st _) => Some (db st)
  | Some (Threw _ _ d) => Some d
  | None => None
  end.

Definition requestedAfter (o : option Outcome) : option (option Id) :=
  match o with
  | Some (Returned _ requested) => Some requested
  | _ => None
  end.

(** User 1 starts a session for cafes in Paris on an empty store: it is
    session 0. *)
Definition started : Reply Id * Scraper.t * DB :=
  startSession 1%nat true Store.empty create "Cafe" "Paris" 1%nat.

Definition refused : Tick := {| clicks := []; ok := false |}.
Definition stopClicked : Tick := {| clicks := [StopClicked]; ok := true |}.

Definition twoCafes : Adapter :=
  Successful (Some [scraped "Cafe A" (Some "1 Rue A") None;
                    scraped "Cafe B" (Some "2 Rue B") None]).

(** The store refuses the insert of the first listing and accepts
    everything after it. *)
Definition firstInsertRefused : option Outcome :=
  scrapeListings 1%nat 5000 twoCafes [quiet; quiet; quiet; refused]
    started.1.2 started.2.

(** The user clicks stop during the delay before the first insert. *)
Definition stoppedEarly : option Outcome :=
  scrapeListings 1%nat 5000 twoCafes [quiet; quiet; stopClicked]
    started.1.2 started.2.

(** One whole search as the page runs it: look the query up, and on a miss
    start a session and ingest what the adapter returns, here nothing. *)
Definition search (lookupOk : bool) (now : Instant) (d : DB)
    (businessType loc : string) : option Id * option DB :=
  match checkCache 1%nat lookupOk now d businessType loc with
  | Some sid => (Some sid, Some d)
  | None =>
      match startSession 1%nat true d create businessType loc 1%nat with
      | (Data _, s, d1) =>
          (None,
           storeAfter (scrapeListings 1%nat now (Successful (Some [])) []
                         s d1))
      | (Error _, _, d1) => (None, Some d1)
      end
  end.

(** A first search, then a second one whose lookup request fails and is
    taken for a miss: two entries for the same query. *)
Definition searchedTwice : DB :=
  default Store.empty
    (d1 ← (search true 1000 Store.empty "Cafe" "Paris").2;
     (search false 2000 d1 "Cafe" "Paris").2).

(** A search whose business type contains the separator. *)
Definition searchedWithBar : DB :=
  default Store.empty (search true 1000 Store.empty "a|b" "c").2.

End Cases.

(** ** One turn of the ingestion loop, and conditions on what happens
    while it is suspended *)

Module Turns.
Import JsString Store Scraper.

(** The body of the ingestion loop from the inter-record delay on, for the
    listing at index [i]: the delay, the insert and, when the insert is
    accepted, the update of [total_records] and the progress callback. *)
Definition turn (uid : Id) (now : Instant) (sid : Id) (listing : Scraped.t)
    (i : Z) (d : DB) (shown : list Listing.t) (env1 : list Tick) (s1 : t)
  : Ingestion :=
  let '(delay, env2) := next env1 in
  let s2 := during now delay s1 in
  let '(ins, env3) := next env2 in
  let '(reply, db3) := insertListing uid (ok ins) sid listing d in
  let s3 := during now ins s2 in
  match reply with
  | Error _ =>
      {| scraper := s3; db := db3; env := env3; progress := shown |}
  | Data data =>
      let '(upd, env4) := next env3 in
      {| scraper := during now upd s3;
         db := await uid (ok upd) (SessionUpdate sid (setTotal (i + 1))) db3;
         env := env4;
         progress := shown ++ [data] |}
  end.

(** A suspension point at which the user neither resumes nor stops. *)
Definition holding (tk : Tick) : Prop :=
  (ResumeClicked ∉ clicks tk) /\ (StopClicked ∉ clicks tk).

End Turns.

(** ** Notions about the rows the engine writes *)

Module Rows.
Import JsString Store ProcessListings.

(** The dedup key of a processed row, computed as the engine computes the
    key of a raw listing. *)
Definition rowKey (row : Processed.t) : string :=
  trim (toLowerCase (Processed.name row)) +:+ "|" +:+
  trim (toLowerCase (orEmpty (Processed.address row))).

(** A network whose answer to a request does not depend on what was asked
    before. *)
Definition stateless {W : Type} (fetch : W -> Request -> FetchOutcome * W)
  : Prop :=
  forall w w' r, (fetch w r).1 = (fetch w' r).1.

(** The row is a copy of the listing. *)
Definition copyOf (row : Processed.t) (l : Listing.t) : Prop :=
  Processed.name row = Listing.name l
  /\ Processed.rating row = Listing.rating l
  /\ Processed.website row = Listing.website l
  /\ Processed.address row = Listing.address l
  /\ Processed.phone row = Listing.phone l.

End Rows.

(** ** The [scrape-google-maps] edge function: the listing source adapter *)

Module ScrapeGoogleMaps.
Import JsString Store.

(** [result.gps_coordinates] *)
Record Gps := {
  latitude : option Q;
  longitude : option Q
}.

(** One entry of [local_results] as the search provider returns it; a field
    that is absent or [null] is [None]. *)
Record Result := {
  title : option string;
  name : option string;
  description : option string;
  rating : option Q;
  reviews : option Z;
  type : option string;
  website : option string;
  address : option string;
  phone : option string;
  gps_coordinates : option Gps;
  opening_hours : option Json;
  price : option string;
  thumbnail : option string;
  place_id : option string
}.

(** [a || b] on a nullable string and a string. *)
Definition orString (a : option string) (b : string) : string :=
  if truthy a then orEmpty a else b.

(** [q || null] on a nullable number: zero is falsy. *)
Definition orNull (a : option Q) : option Q :=
  match a with
  | Some q => if Qeq_bool q 0 then None else Some q
  | None => None
  end.

(** [q || 0] on a nullable number. *)
Definition orZero (a : option Q) : Q :=
  match orNull a with
  | Some q => q
  | None => 0%Q
  end.

(** [n || 0] on a nullable integer. *)
Definition orZeroZ (a : option Z) : Z :=
  match a with
  | Some n => n
  | None => 0
  end.

(** JavaScript truthiness of a JSON value: [false], zero and the empty
    string are falsy, an object or an array is truthy. *)
Definition truthyJson (v : Json) : bool :=
  match v with
  | JBool b => b
  | JNumber q => negb (Qeq_bool q 0)
  | JString s => negb (isEmpty s)
  | JObject _ => true
  end.

(** [v || null] on a nullable JSON value. *)
Definition orNullJson (a : option Json) : option Json :=
  match a with
  | Some v => if truthyJson v then Some v else None
  | None => None
  end.

(** The body of [localResults.map]. *)
Definition toListing (result : Result) : Scraped.t :=
  {| Scraped.name := orString (title result) (orString (name result) "Unknown");
     Scraped.description := Some (orString (description result) "");
     Scraped.rating := Some (orZero (rating result));
     Scraped.reviews := Some (orZeroZ (reviews result));
     Scraped.type := Some (orString (type result) "");
     Scraped.website := Some (orString (website result) "");
     Scraped.address := Some (orString (address result) "");
     Scraped.phone := Some (orString (phone result) "");
     Scraped.latitude :=
       orNull (match gps_coordinates result with
               | Some gps => latitude gps
               | None => None
               end);
     Scraped.longitude :=
       orNull (match gps_coordinates result with
               | Some gps => longitude gps
               | None => None
               end);
     Scraped.opening_hours := orNullJson (opening_hours result);
     Scraped.price_level := Some (orString (price result) "");
     Scraped.thumbnail := Some (orString (thumbnail result) "");
     Scraped.place_id := Some (orString (place_id result) "") |}.

(** What the search provider does with the request: the [fetch] rejects or
    the body is no JSON (an exception with a message), the response is not
    ok, or the body is read and [local_results] is there or not. *)
Inductive Upstream :=
| Raised (message : string)
| NotOk (statusText : string)
| Body (local_results : option (list Result)).

(** The response of the function: status 200 with the listings, or status
    500 with an error message. *)
Inductive Response :=
| Listings (listings : list Scraped.t)
| Failed (error : string).

(** [`${businessType} in ${location}`] *)
Definition query (businessType location : string) : string :=
  businessType +:+ " in " +:+ location.

(** The handler, from the parsed request body on; [searchApi] answers a
    query asked with a key. *)
Definition handler (searchApiKey : option string)
    (searchApi : string -> string -> Upstream)
    (businessType location : string) : Response :=
  if negb (truthy searchApiKey) then Failed "SearchAPI key not configured"
  else
    match searchApi (query businessType location) (orEmpty searchApiKey) with
    | Raised message =>
        Failed (orString (Some message) "Failed to scrape listings")
    | NotOk statusText =>
        Failed ("SearchAPI request failed: " +:+ statusText)
    | Body local_results =>
        Listings (map toListing (default [] local_results))
    end.

(** What the scraper gets from its [fetch] of the function: a response that
    is ok with the body [{success: true, listings}], or one that is not. *)
Definition received (r : Response) : Scraper.Adapter :=
  match r with
  | Listings listings => Scraper.Successful (Some listings)
  | Failed _ => Scraper.NotOk
  end.

End ScrapeGoogleMaps.

(** ** The export utilities: CSV and spreadsheet XML *)

Module ExportUtils.
Import JsString Store.

(** The double quote, the apostrophe and the line feed. *)
Definition dq : ascii := "034"%char.
Definition apos : ascii := "039"%char.
Definition lf : ascii := "010"%char.

(** [s.replace(/c/g, replacement)] for a one-character pattern. *)
Fixpoint replaceAll (c : ascii) (replacement : string) (s : string)
  : string :=
  match s with
  | EmptyString => EmptyString
  | String x s' =>
      if Ascii.eqb x c then replacement +:+ replaceAll c replacement s'
      else String x (replaceAll c replacement s')
  end.

Definition escapeXml (str : string) : string :=
  replaceAll apos "&apos;"
    (replaceAll dq "&quot;"
       (replaceAll ">" "&gt;"
          (replaceAll "<" "&lt;"
             (replaceAll "&" "&amp;" str)))).

(** The cell of a CSV row: the text between double quotes, every double
    quote of it doubled. *)
Definition csvCell (cell : string) : string :=
  String dq (replaceAll dq (String dq (String dq "")) cell)
  +:+ String dq "".

Definition headers : list string :=
  ["Name"; "Rating"; "Address"; "Phone"; "Website"; "Description"].

(** What the two exports read of a listing; a processed listing has no
    description. *)
Record Exported := {
  name : string;
  rating : option Q;
  address : option string;
  phone : option string;
  website : option string;
  description : option string
}.

Definition ofListing (l : Listing.t) : Exported :=
  {| name := Listing.name l; rating := Listing.rating l;
     address := Listing.address l; phone := Listing.phone l;
     website := Listing.website l; description := Listing.description l |}.

Definition ofProcessed (p : Processed.t) : Exported :=
  {| name := Processed.name p; rating := Processed.rating p;
     address := Processed.address p; phone := Processed.phone p;
     website := Processed.website p; description := None |}.

(** An attribute: the name, an equals sign and the value between double
    quotes. *)
Definition attr (name value : string) : string :=
  name +:+ "=" +:+ String dq value +:+ String dq "".

Section Content.
(** [Number.prototype.toString] *)
Variable numberToString : Q -> string.

(** The row of a listing: [listings.map(listing => [..])]. *)
Definition row (l : Exported) : list string :=
  [name l;
   match rating l with Some q => numberToString q | None => "" end;
   orEmpty (address l);
   orEmpty (phone l);
   orEmpty (website l);
   orEmpty (description l)].

(** [csvContent] of [exportToCSV]. *)
Definition csvContent (listings : list Exported) : string :=
  String.concat (String lf "")
    (String.concat "," headers
     :: map (fun r => String.concat "," (map csvCell r)) (map row listings)).

(** One cell of the sheet. *)
Definition xmlCell (type cell : string) : string :=
  "<Cell><Data " +:+ attr "ss:Type" type +:+ ">" +:+ escapeXml cell
  +:+ "</Data></Cell>".

(** [row.forEach((cell, index) => ..)], from index [index] on. *)
Fixpoint xmlCells (index : nat) (cells : list string) : string :=
  match cells with
  | [] => ""
  | cell :: rest =>
      xmlCell (if Nat.eqb index 1 && negb (isEmpty cell)
               then "Number" else "String") cell
      +:+ xmlCells (S index) rest
  end.

Definition xmlRow (cells : list string) : string :=
  "<Row>" +:+ xmlCells 0 cells +:+ "</Row>".

Definition xmlHeaderRow : string :=
  "<Row>" +:+ String.concat "" (map (xmlCell "String") headers) +:+ "</Row>".

(** [xmlContent] of [exportToExcel]. *)
Definition xmlContent (listings : list Exported) : string :=
  "<?xml " +:+ attr "version" "1.0" +:+ "?><?mso-application "
  +:+ attr "progid" "Excel.Sheet" +:+ "?>"
  +:+ "<Workbook "
  +:+ attr "xmlns" "urn:schemas-microsoft-com:office:spreadsheet" +:+ " "
  +:+ attr "xmlns:o" "urn:schemas-microsoft-com:office:office" +:+ " "
  +:+ attr "xmlns:x" "urn:schemas-microsoft-com:office:excel" +:+ " "
  +:+ attr "xmlns:ss" "urn:schemas-microsoft-com:office:spreadsheet" +:+ " "
  +:+ attr "xmlns:html" "http://www.w3.org/TR/REC-html40" +:+ ">"
  +:+ "<Worksheet " +:+ attr "ss:Name" "Listings" +:+ "><Table>"
  +:+ xmlHeaderRow
  +:+ String.concat "" (map xmlRow (map row listings))
  +:+ "</Table></Worksheet></Workbook>".

End Content.

(** *** Reading back what was written *)

(** The replacement of one character by [escapeXml]. *)
Definition escapeChar (c : ascii) : string :=
  if Ascii.eqb c "&" then "&amp;"
  else if Ascii.eqb c "<" then "&lt;"
  else if Ascii.eqb c ">" then "&gt;"
  else if Ascii.eqb c dq then "&quot;"
  else if Ascii.eqb c apos then "&apos;"
  else String c "".

Fixpoint escapeEach (s : string) : string :=
  match s with
  | EmptyString => EmptyString
  | String c s' => escapeChar c +:+ escapeEach s'
  end.

(** How often a character occurs in a string. *)
Fixpoint occurrences (c : ascii) (s : string) : nat :=
  match s with
  | EmptyString => 0
  | String x s' => (if Ascii.eqb x c then 1 else 0) + occurrences c s'
  end.

(** The reading of a quoted CSV field after its opening quote: a doubled
    quote is a quote of the field, a single one ends it.  The result is the
    field and what follows it. *)
Fixpoint readQuotedBody (s : string) : option (string * string) :=
  match s with
  | EmptyString => None
  | String c s' =>
      if Ascii.eqb c dq then
        match s' with
        | String c' s'' =>
            if Ascii.eqb c' dq
            then prod_map (String dq) id <$> readQuotedBody s''
            else Some (EmptyString, s')
        | EmptyString => Some (EmptyString, EmptyString)
        end
      else prod_map (String c) id <$> readQuotedBody s'
  end.

Definition readQuoted (s : string) : option (string * string) :=
  match s with
  | String c s' => if Ascii.eqb c dq then readQuotedBody s' else None
  | EmptyString => None
  end.

(** The reading of [n] quoted fields separated by commas. *)
Fixpoint readFields (n : nat) (s : string) : option (list string * string) :=
  match n with
  | O => Some ([], s)
  | S n' =>
      match readQuoted s with
      | Some (field, rest) =>
          match n' with
          | O => Some ([field], rest)
          | S _ =>
              match rest with
              | String c rest' =>
                  if Ascii.eqb c ","
                  then prod_map (cons field) id <$> readFields n' rest'
                  else None
              | EmptyString => None
              end
          end
      | None => None
      end
  end.

(** Whether a string starts with a double quote. *)
Definition startsQuoted (s : string) : bool :=
  match s with
  | String c _ => Ascii.eqb c dq
  | EmptyString => false
  end.

End ExportUtils.

(** ** The email check of the migrations *)

Module Sql.
Import JsString.

(** [s LIKE pattern]: in the pattern [%] stands for any run of characters
    and [_] for any one character; the patterns at hand have no escape. *)
Fixpoint like (pattern : string) : string -> bool :=
  match pattern with
  | EmptyString => isEmpty
  | String c pattern' =>
      if Ascii.eqb c "%" then
        fix run (s : string) : bool :=
          like pattern' s
          || match s with
             | EmptyString => false
             | String _ s' => run s'
             end
      else if Ascii.eqb c "_" then
        fun s =>
          match s with
          | EmptyString => false
          | String _ s' => like pattern' s'
          end
      else
        fun s =>
          match s with
          | EmptyString => false
          | String x s' => Ascii.eqb x c && like pattern' s'
          end
  end.

(** A pattern character that stands for itself, and a pattern made of
    such characters. *)
Definition plain (c : ascii) : Prop := c <> "%"%char /\ c <> "_"%char.

Fixpoint plainText (p : string) : Prop :=
  match p with
  | EmptyString => True
  | String c p' => plain c /\ plainText p'
  end.

(** [s ILIKE pattern]: [LIKE] without regard to letter case. *)
Definition ilike (pattern s : string) : bool :=
  like (toLowerCase pattern) (toLowerCase s).

(** [is_rategain_email(email)]: [RETURN email ILIKE '%@rategain.com']; a
    [NULL] email gives [NULL]. *)
Definition is_rategain_email (email : option string) : option bool :=
  ilike "%@rategain.com" <$> email.

End Sql.

(** ** The search form and the history panel *)

Module SearchForm.
Import JsString.

(** [handleSubmit]: the call of [onStartScraping], if there is one. *)
Definition handleSubmit (businessType city country : string)
  : option (string * string) :=
  if truthy (Some (trim businessType)) && truthy (Some (trim city))
     && truthy (Some (trim country))
  then Some (businessType, city +:+ ", " +:+ country)
  else None.

End SearchForm.

Module SearchHistory.
Import Store.

Section FormatDate.
(** [Number.prototype.toString] on an integer and
    [Date.prototype.toLocaleDateString]. *)
Variable numberToString : Z -> string.
Variable toLocaleDateString : Instant -> string.

(** [formatDate], with the instant of the call and the instant the string
    denotes. *)
Definition formatDate (now date : Instant) : string :=
  let diffInHours := (now - date) / (1000 * 60 * 60) in
  if diffInHours <? 1 then "Just now"
  else if diffInHours <? 24 then numberToString diffInHours +:+ "h ago"
  else
    let diffInDays := diffInHours / 24 in
    if diffInDays =? 1 then "Yesterday"
    else if diffInDays <? 7 then numberToString diffInDays +:+ " days ago"
    else toLocaleDateString date.

End FormatDate.

End SearchHistory.

(** ** Blank strings *)

Module Blank.
Import JsString.

(** Whether a string consists of white space only. *)
Fixpoint blank (s : string) : bool :=
  match s with
  | EmptyString => true
  | String c s' => isSpace c && blank s'
  end.

End Blank.

(** ** More concrete runs and answers *)

Module MoreCases.
Import JsString Store Scraper Cases.

Definition cafes : list Scraped.t :=
  [scraped "Cafe A" (Some "1 Rue A") None;
   scraped "Cafe B" (Some "2 Rue B") None].

(** The state a run ends in; the state it started from when it does not
    return. *)
Definition endOf (start : Ingestion) (o : option Outcome) : Ingestion :=
  match o with
  | Some (Returned st _) => st
  | _ => start
  end.

Definition atStart : Ingestion :=
  {| scraper := started.1.2; db := started.2; env := []; progress := [] |}.

(** The end of the run in which the first insert is refused, of the run
    that is stopped during the first delay, and of a run in which nothing
    happens. *)
Definition refusedEnd : Ingestion := endOf atStart firstInsertRefused.
Definition stoppedEnd : Ingestion := endOf atStart stoppedEarly.
Definition quietEnd : Ingestion :=
  endOf atStart
    (scrapeListings 1%nat 5000 (Successful (Some cafes)) []
       started.1.2 started.2).

(** The ingestion of session 0, paused by the user. *)
Definition pausedScraper : Scraper.t :=
  {| sessionId := Some 0%nat; isRunning := true; isPaused := true;
     abortController := Some false; userId := Some 1%nat |}.

Definition pauseClicked : Tick := {| clicks := [PauseClicked]; ok := true |}.
Definition resumeClicked : Tick := {| clicks := [ResumeClicked]; ok := true |}.

Definition pausedAt (e : list Tick) : Ingestion :=
  {| scraper := pausedScraper; db := started.2; env := e; progress := [] |}.

(** A provider that knows one cafe, without a name and on the equator. *)
Definition equatorCafe : ScrapeGoogleMaps.Result :=
  {| ScrapeGoogleMaps.title := None;
     ScrapeGoogleMaps.name := Some "";
     ScrapeGoogleMaps.description := None;
     ScrapeGoogleMaps.rating := Some (9 # 2)%Q;
     ScrapeGoogleMaps.reviews := None;
     ScrapeGoogleMaps.type := Some "Cafe";
     ScrapeGoogleMaps.website := None;
     ScrapeGoogleMaps.address := Some "1 Line Rd";
     ScrapeGoogleMaps.phone := None;
     ScrapeGoogleMaps.gps_coordinates :=
       Some {| ScrapeGoogleMaps.latitude := Some 0%Q;
               ScrapeGoogleMaps.longitude := Some (3 # 1)%Q |};
     ScrapeGoogleMaps.opening_hours := None;
     ScrapeGoogleMaps.price := None;
     ScrapeGoogleMaps.thumbnail := None;
     ScrapeGoogleMaps.place_id := None |}.

Definition provider (q key : string) : ScrapeGoogleMaps.Upstream :=
  if String.eqb q "cafe in quito" then ScrapeGoogleMaps.Body (Some [equatorCafe])
  else ScrapeGoogleMaps.NotOk "Bad Request".

(** Two runs of the engine, one after the other, over the same session. *)
Definition firstRun : @ProcessListings.Run unit :=
  ProcessListings.handler acmeLive ProcessListings.noFaults acme tt 0%nat.

Definition secondRun : @ProcessListings.Run unit :=
  ProcessListings.handler acmeLive ProcessListings.noFaults
    (ProcessListings.store firstRun) (ProcessListings.network firstRun) 0%nat.

Definition equatorListings : list Scraped.t :=
  match ScrapeGoogleMaps.handler (Some "k") provider "cafe" "quito" with
  | ScrapeGoogleMaps.Listings ls => ls
  | ScrapeGoogleMaps.Failed _ => []
  end.

End MoreCases.

(** * Properties *)

(** ** Strings *)

Module JsStringFacts.
Import JsString.

Lemma isSpace_lowerChar c : isSpace (lowerChar c) = isSpace c.
Proof.
  unfold lowerChar. destruct (isUpper c) eqn:Hu; [|reflexivity].
  unfold isUpper, isSpace, code in *.
  assert (Hc : (65 <= nat_of_ascii c <= 90)%nat
               \/ (192 <= nat_of_ascii c <= 222)%nat).
  { apply orb_prop in Hu as [Hu|Hu].
    - apply andb_prop in Hu as [H1 H2]. apply Nat.leb_le in H1, H2. lia.
    - apply andb_prop in Hu as [Hu _]. apply andb_prop in Hu as [H1 H2].
      apply Nat.leb_le in H1, H2. lia. }
  assert (Hlt : (nat_of_ascii c + 32 < 256)%nat) by lia.
  rewrite nat_ascii_embedding by exact Hlt.
  destruct (Nat.leb_spec 9 (nat_of_ascii c + 32)),
           (Nat.leb_spec (nat_of_ascii c + 32) 13),
           (Nat.eqb_spec (nat_of_ascii c + 32) 32),
           (Nat.eqb_spec (nat_of_ascii c + 32) 160),
           (Nat.leb_spec 9 (nat_of_ascii c)),
           (Nat.leb_spec (nat_of_ascii c) 13),
           (Nat.eqb_spec (nat_of_ascii c) 32),
           (Nat.eqb_spec (nat_of_ascii c) 160); simpl; try reflexivity; lia.
Qed.

Lemma isEmpty_toLowerCase s : isEmpty (toLowerCase s) = isEmpty s.
Proof. destruct s; reflexivity. Qed.

Lemma toLowerCase_trimStart s :
  toLowerCase (trimStart s) = trimStart (toLowerCase s).
Proof.
  induction s as [|c s IH]; simpl; [reflexivity|].
  rewrite isSpace_lowerChar. destruct (isSpace c); [exact IH|reflexivity].
Qed.

Lemma toLowerCase_trimEnd s :
  toLowerCase (trimEnd s) = trimEnd (toLowerCase s).
Proof.
  induction s as [|c s IH]; simpl; [reflexivity|].
  rewrite isSpace_lowerChar, <- IH, isEmpty_toLowerCase.
  destruct (isSpace c && isEmpty (trimEnd s)); reflexivity.
Qed.

(** Lower-casing and trimming commute, so the order in which the sources
    apply them ([toLowerCase().trim()]) does not matter. *)
Lemma toLowerCase_trim s : toLowerCase (trim s) = trim (toLowerCase s).
Proof.
  unfold trim. rewrite toLowerCase_trimEnd, toLowerCase_trimStart.
  reflexivity.
Qed.

End JsStringFacts.

(** ** The dedup and verification engine *)

Module EngineFacts.
Import JsString Store ProcessListings Spec.

(** The key the code computes is the key of the specification. *)
Lemma companyKey_dedupKey l : companyKey l = dedupKey l.
Proof.
  unfold companyKey, dedupKey.
  rewrite !JsStringFacts.toLowerCase_trim. reflexivity.
Qed.

Lemma live_verifiedStatus status : live status = true <-> verifiedStatus status.
Proof. unfold live, verifiedStatus. lia. Qed.

Section Loop.
Context {W : Type}.
Variable fetch : W -> Request -> FetchOutcome * W.

Lemma visit_isDuplicate sid seen w l :
  isDuplicate (visit fetch sid seen w l).1 = has seen (companyKey l).
Proof.
  unfold visit. destruct (truthy _ && negb _); [|reflexivity].
  destruct (fetch w _) as [[status|message] w']; reflexivity.
Qed.

Lemma visit_request sid seen w l :
  request (visit fetch sid seen w l).1 =
  if truthy (Listing.website l) && negb (has seen (companyKey l))
  then Some (headRequest (orEmpty (Listing.website l))) else None.
Proof.
  unfold visit. destruct (truthy _ && negb _); [|reflexivity].
  destruct (fetch w _) as [[status|message] w']; reflexivity.
Qed.

Lemma visit_outcome sid seen w l :
  outcome (visit fetch sid seen w l).1 =
  if truthy (Listing.website l) && negb (has seen (companyKey l))
  then Some (fetch w (headRequest (orEmpty (Listing.website l)))).1
  else None.
Proof.
  unfold visit. destruct (truthy _ && negb _); [|reflexivity].
  destruct (fetch w _) as [[status|message] w']; reflexivity.
Qed.

Lemma visit_verified sid seen w l :
  isWebsiteVerified (visit fetch sid seen w l).1 = true <->
  exists status,
    outcome (visit fetch sid seen w l).1 = Some (Responded status)
    /\ verifiedStatus status.
Proof.
  unfold visit. destruct (truthy _ && negb _).
  - destruct (fetch w _) as [[status|message] w']; simpl.
    + rewrite live_verifiedStatus. split.
      * intros H. exists status. split; [reflexivity|exact H].
      * intros (s & Hs & Hv). congruence.
    + split; [discriminate|]. intros (s & Hs & _). discriminate.
  - simpl. split; [discriminate|]. intros (s & Hs & _). discriminate.
Qed.


(** A duplicate is not checked at all. *)
Lemma visit_duplicate_idle sid seen w l :
  isDuplicate (visit fetch sid seen w l).1 = true ->
  request (visit fetch sid seen w l).1 = None
  /\ outcome (visit fetch sid seen w l).1 = None
  /\ pushed (visit fetch sid seen w l).1 = None
  /\ (visit fetch sid seen w l).2 = w.
Proof.
  rewrite visit_isDuplicate. intros Hd.
  unfold visit. rewrite Hd, andb_false_r. simpl. auto.
Qed.

Lemma forLoop_snoc sid st ls l :
  forLoop fetch sid st (ls ++ [l]) = loopBody fetch sid (forLoop fetch sid st ls) l.
Proof. unfold forLoop. rewrite fold_left_app. reflexivity. Qed.

Lemma has_insert (seen : gmap string bool) k k' :
  has (<[k := true]> seen) k' = true <-> k = k' \/ has seen k' = true.
Proof.
  unfold has. rewrite lookup_insert. case_decide as E.
  - split; auto.
  - destruct (seen !! k'); split; auto; intros [?|?]; congruence.
Qed.

(** The keys seen after a prefix are the keys of the prefix. *)
Lemma forLoop_seen sid w ls k :
  has (seenCompanies (forLoop fetch sid (initial w) ls)) k = true
  <-> exists j l, ls !! j = Some l /\ companyKey l = k.
Proof.
  induction ls as [|l ls IH] using rev_ind.
  - simpl. split; [discriminate|]. intros (j & l & Hl & _).
    rewrite lookup_nil in Hl. discriminate.
  - rewrite forLoop_snoc. unfold loopBody.
    destruct (visit fetch sid _ _ l) as [it w1] eqn:Ev. simpl.
    assert (Hd : isDuplicate it = has (seenCompanies (forLoop fetch sid (initial w) ls)) (companyKey l)).
    { rewrite <- (visit_isDuplicate sid _ (world (forLoop fetch sid (initial w) ls)) l).
      rewrite Ev. reflexivity. }
    assert (Hstep : has (if negb (isDuplicate it)
                         then <[companyKey l := true]> (seenCompanies (forLoop fetch sid (initial w) ls))
                         else seenCompanies (forLoop fetch sid (initial w) ls)) k = true
                    <-> companyKey l = k \/ has (seenCompanies (forLoop fetch sid (initial w) ls)) k = true).
    { destruct (isDuplicate it) eqn:Ed; simpl.
      - split; [auto|]. intros [<-|H]; [congruence|exact H].
      - apply has_insert. }
    rewrite Hstep, IH. split.
    + intros [Hk|(j & l' & Hl & Hk)].
      * exists (length ls), l. split; [|exact Hk].
        rewrite lookup_app_r by lia. rewrite Nat.sub_diag. reflexivity.
      * exists j, l'. split; [|exact Hk].
        apply lookup_app_l_Some. exact Hl.
    + intros (j & l' & Hl & Hk).
      apply lookup_app_Some in Hl as [Hl|[Hge Hl]].
      * right. exists j, l'. auto.
      * left. destruct (j - length ls)%nat; simpl in Hl; [|rewrite lookup_nil in Hl; discriminate].
        congruence.
Qed.

Lemma forLoop_length sid w ls :
  length (iterations (forLoop fetch sid (initial w) ls)) = length ls.
Proof.
  induction ls as [|l ls IH] using rev_ind; [reflexivity|].
  rewrite forLoop_snoc. unfold loopBody.
  destruct (visit fetch sid _ _ l) as [it w1]. simpl.
  rewrite !length_app, IH. reflexivity.
Qed.

(** The batch is made of the rows pushed, in order. *)
Lemma forLoop_batch sid w ls :
  processedListings (forLoop fetch sid (initial w) ls)
  = omap pushed (iterations (forLoop fetch sid (initial w) ls)).
Proof.
  induction ls as [|l ls IH] using rev_ind; [reflexivity|].
  rewrite forLoop_snoc. unfold loopBody.
  destruct (visit fetch sid _ _ l) as [it w1]. simpl.
  rewrite omap_app, IH. simpl. destruct (pushed it); reflexivity.
Qed.

(** Every entry of the trace is the visit of its listing, with the keys of
    the listings before it as the keys seen. *)
Lemma forLoop_iteration sid w ls i l it :
  ls !! i = Some l ->
  iterations (forLoop fetch sid (initial w) ls) !! i = Some it ->
  exists seen w0,
    it = (visit fetch sid seen w0 l).1
    /\ forall k, has seen k = true
         <-> exists j l', (j < i)%nat /\ ls !! j = Some l' /\ companyKey l' = k.
Proof.
  revert i l it. induction ls as [|x ls IH] using rev_ind; intros i l it Hl Hit.
  - rewrite lookup_nil in Hl. discriminate.
  - rewrite forLoop_snoc in Hit. unfold loopBody in Hit.
    destruct (visit fetch sid _ _ x) as [itx w1] eqn:Ev. simpl in Hit.
    apply lookup_app_Some in Hl as [Hl|[Hge Hl]].
    + pose proof (lookup_lt_Some _ _ _ Hl) as Hlt.
      rewrite lookup_app_l in Hit by (rewrite forLoop_length; exact Hlt).
      destruct (IH i l it Hl Hit) as (seen & w0 & -> & Hseen).
      exists seen, w0. split; [reflexivity|].
      intros k. rewrite Hseen. split.
      * intros (j & l' & Hj & Hl' & Hk). exists j, l'.
        split; [exact Hj|]. split; [|exact Hk].
        apply lookup_app_l_Some. exact Hl'.
      * intros (j & l' & Hj & Hl' & Hk). exists j, l'.
        split; [exact Hj|]. split; [|exact Hk].
        rewrite lookup_app_l in Hl' by lia. exact Hl'.
    + destruct (i - length ls)%nat eqn:Ei; simpl in Hl;
        [|rewrite lookup_nil in Hl; discriminate].
      injection Hl as ->.
      assert (i = length ls) as -> by lia.
      rewrite lookup_app_r in Hit by (rewrite forLoop_length; lia).
      rewrite forLoop_length, Nat.sub_diag in Hit. simpl in Hit.
      injection Hit as <-.
      exists (seenCompanies (forLoop fetch sid (initial w) ls)),
             (world (forLoop fetch sid (initial w) ls)).
      split; [rewrite Ev; reflexivity|].
      intros k. rewrite forLoop_seen. split.
      * intros (j & l' & Hl' & Hk). exists j, l'.
        split; [exact (lookup_lt_Some _ _ _ Hl')|].
        split; [|exact Hk]. apply lookup_app_l_Some. exact Hl'.
      * intros (j & l' & Hj & Hl' & Hk). exists j, l'.
        split; [|exact Hk]. rewrite lookup_app_l in Hl' by lia. exact Hl'.
Qed.

End Loop.

Section Contract.
Context {W : Type}.
Variable fetch : W -> Request -> FetchOutcome * W.

Lemma duplicate_iff_not_first sid w ls i it :
  iterations (forLoop fetch sid (initial w) ls) !! i = Some it ->
  isDuplicate it = false <-> firstOccurrence ls i.
Proof.
  intros Hit.
  assert (Hi : (i < length ls)%nat).
  { rewrite <- (forLoop_length fetch sid w). exact (lookup_lt_Some _ _ _ Hit). }
  destruct (lookup_lt_is_Some_2 ls i Hi) as [l Hl].
  destruct (forLoop_iteration fetch sid w ls i l it Hl Hit)
    as (seen & w0 & -> & Hseen).
  rewrite visit_isDuplicate. split.
  - intros Hno. exists l. split; [exact Hl|].
    intros j l' Hj Hl' Hk.
    assert (Hin : has seen (companyKey l) = true).
    { apply Hseen. exists j, l'. rewrite !companyKey_dedupKey. auto. }
    congruence.
  - intros (l0 & Hl0 & Hfirst).
    assert (l0 = l) as -> by congruence.
    destruct (has seen (companyKey l)) eqn:E; [|reflexivity].
    apply Hseen in E as (j & l' & Hj & Hl' & Hk).
    rewrite !companyKey_dedupKey in Hk.
    exfalso. exact (Hfirst j l' Hj Hl' Hk).
Qed.

Lemma duplicate_is_dropped sid w ls i it :
  iterations (forLoop fetch sid (initial w) ls) !! i = Some it ->
  isDuplicate it = true ->
  request it = None /\ outcome it = None /\ pushed it = None.
Proof.
  intros Hit Hd.
  assert (Hi : (i < length ls)%nat).
  { rewrite <- (forLoop_length fetch sid w). exact (lookup_lt_Some _ _ _ Hit). }
  destruct (lookup_lt_is_Some_2 ls i Hi) as [l Hl].
  destruct (forLoop_iteration fetch sid w ls i l it Hl Hit)
    as (seen & w0 & -> & _).
  destruct (visit_duplicate_idle fetch sid seen w0 l Hd) as (? & ? & ? & _).
  auto.
Qed.

(** C2.  Whatever the list of raw listings, the engine visits each of them
    once, in order; a listing is a candidate (not a duplicate) exactly when
    it is the first of its dedup group, every group has exactly one
    candidate, and for a duplicate no request is issued and no row is
    pushed. *)
Theorem first_of_each_group_is_the_candidate
    (sid : Id) (w : W) (ls : list Listing.t) :
  let its := iterations (forLoop fetch sid (initial w) ls) in
  length its = length ls
  /\ (forall i it, its !! i = Some it ->
        (isDuplicate it = false <-> firstOccurrence ls i)
        /\ (isDuplicate it = true ->
            request it = None /\ outcome it = None /\ pushed it = None))
  /\ (forall l, l ∈ ls ->
        exists i l0 it,
          ls !! i = Some l0 /\ dedupKey l0 = dedupKey l
          /\ firstOccurrence ls i
          /\ its !! i = Some it /\ isDuplicate it = false
          /\ forall j l' it',
               ls !! j = Some l' -> dedupKey l' = dedupKey l ->
               its !! j = Some it' -> isDuplicate it' = false -> j = i).
Proof.
  intros its. split; [apply forLoop_length|]. split.
  - intros i it Hit. split.
    + exact (duplicate_iff_not_first sid w ls i it Hit).
    + exact (duplicate_is_dropped sid w ls i it Hit).
  - intros l Hl.
    destruct (list_find_elem_of (fun x => dedupKey x = dedupKey l) ls l Hl eq_refl)
      as [[i l0] Hfind].
    apply list_find_Some in Hfind as (Hl0 & Hk0 & Hmin).
    assert (Hi : (i < length its)%nat).
    { unfold its. rewrite forLoop_length. exact (lookup_lt_Some _ _ _ Hl0). }
    destruct (lookup_lt_is_Some_2 its i Hi) as [it Hit].
    assert (Hfirst : firstOccurrence ls i).
    { exists l0. split; [exact Hl0|]. intros j l' Hj Hl' Hk.
      apply (Hmin j l' Hl' Hj). congruence. }
    exists i, l0, it. repeat split; try assumption.
    + apply (duplicate_iff_not_first sid w ls i it Hit). exact Hfirst.
    + intros j l' it' Hl' Hk' Hit' Hd'.
      apply (duplicate_iff_not_first sid w ls j it' Hit') in Hd'
        as (lj & Hlj & Hfj).
      assert (lj = l') as -> by congruence.
      destruct (Nat.lt_trichotomy j i) as [Hlt|[Heq|Hgt]]; [|exact Heq|].
      * exfalso. exact (Hmin j l' Hl' Hlt Hk').
      * exfalso. apply (Hfj i l0 Hgt Hl0). congruence.
Qed.

(** X22.  Every listing is visited, whatever the checks before it
    answered: a candidate with a website is asked for with one HEAD request, 5000 ms of
    patience, redirects followed, at the website as it is when it starts
    with [http] and behind [https://] otherwise; it is verified exactly when
    a response came with a status in [200,400). *)
Lemma verification_contract (sid : Id) (w : W) (ls : list Listing.t) :
  let its := iterations (forLoop fetch sid (initial w) ls) in
  length its = length ls
  /\ forall i l it, ls !! i = Some l -> its !! i = Some it ->
       (isDuplicate it = false -> truthy (Listing.website l) = true ->
        exists site w0,
          Listing.website l = Some site
          /\ request it =
               Some {| url := if startsWith site "http" then site
                              else "https://" +:+ site;
                       method := "HEAD"; redirect := "follow";
                       timeout := 5000 |}
          /\ outcome it = Some (fetch w0 (headRequest site)).1)
       /\ (truthy (Listing.website l) = false -> request it = None)
       /\ (isWebsiteVerified it = true <->
           exists status,
             outcome it = Some (Responded status) /\ verifiedStatus status).
Proof.
  intros its. split; [apply forLoop_length|].
  intros i l it Hl Hit.
  destruct (forLoop_iteration fetch sid w ls i l it Hl Hit)
    as (seen & w0 & -> & _).
  split; [|split].
  - rewrite visit_isDuplicate, visit_request, visit_outcome.
    intros Hd Ht. rewrite Hd, Ht. simpl.
    destruct (Listing.website l) as [site|] eqn:Es; [|discriminate].
    exists site, w0. auto.
  - rewrite visit_request. intros ->. reflexivity.
  - apply visit_verified.
Qed.

Lemma handler_trace faults d w sid :
  trace (handler fetch faults d w sid) =
  if selectOk faults
  then iterations (forLoop fetch sid (initial w) (sessionListings sid d))
  else [].
Proof.
  unfold handler, selectListings. destruct (selectOk faults); [|reflexivity].
  destruct (sessionListings sid d) as [|l ls] eqn:E; [reflexivity|].
  destruct (processedListings _) as [|row rows]; [reflexivity|].
  unfold insertProcessed. destruct (insertOk faults); reflexivity.
Qed.

(** What a run adds to [processed_listings]: the whole batch or nothing. *)
Lemma handler_rows faults d w sid :
  let r := handler fetch faults d w sid in
  processed_listings (store r) =
  processed_listings d ++
  (if success (response r) then omap pushed (trace r) else []).
Proof.
  unfold handler, selectListings. destruct (selectOk faults);
    [|cbn; rewrite app_nil_r; reflexivity].
  destruct (sessionListings sid d) as [|l ls] eqn:E;
    [cbn; rewrite app_nil_r; reflexivity|].
  pose proof (forLoop_batch fetch sid w (l :: ls)) as Hb.
  destruct (processedListings _) as [|row rows] eqn:Eb.
  - cbn [store trace response success]. rewrite <- Hb.
    unfold markProcessed. destruct (updateOk faults); cbn;
      rewrite app_nil_r; reflexivity.
  - unfold insertProcessed. destruct (insertOk faults);
      cbn [store trace response success].
    + rewrite <- Hb. unfold markProcessed.
      destruct (updateOk faults); reflexivity.
    + rewrite app_nil_r. reflexivity.
Qed.

End Contract.

Section Claims.
Context {W : Type}.
Variable fetch : W -> Request -> FetchOutcome * W.









(** C7, as the code has it.  The engine fails as a whole exactly when the
    read of the raw listings fails or the write of a non-empty batch fails,
    and a failed run leaves the store as it was: [processing_status] is not
    set. *)
Theorem engine_fails_on_read_or_batch_write
    (faults : Faults) (d : DB) (w : W) (sid : Id) :
  let r := handler fetch faults d w sid in
  (success (response r) = false <->
     selectOk faults = false
     \/ (insertOk faults = false /\ omap pushed (trace r) <> []))
  /\ (success (response r) = false -> store r = d).
Proof.
  unfold handler, selectListings. destruct (selectOk faults).
  2:{ cbn. split; [|reflexivity]. split; auto. }
  destruct (sessionListings sid d) as [|l ls] eqn:E.
  { cbn. split; [|discriminate]. split; [discriminate|].
    intros [?|[_ ?]]; [discriminate|congruence]. }
  pose proof (forLoop_batch fetch sid w (l :: ls)) as Hb.
  destruct (processedListings _) as [|row rows] eqn:Eb.
  - cbn [store trace response success]. rewrite <- Hb.
    split; [|discriminate]. split; [discriminate|].
    intros [?|[_ ?]]; [discriminate|congruence].
  - unfold insertProcessed. destruct (insertOk faults);
      cbn [store trace response success]; rewrite <- Hb.
    + split; [|discriminate]. split; [discriminate|].
      intros [?|[? _]]; discriminate.
    + split; [|reflexivity]. split; [|reflexivity].
      intros _. right. split; [reflexivity|discriminate].
Qed.

(** C8, as the code has it.  After a successful run over a session that has
    raw listings, [processing_status] is [completed] when the store accepted
    the status write; a run over a session without raw listings succeeds,
    once the read is answered, and leaves the store as it was. *)
Theorem processing_status_after_success
    (faults : Faults) (d : DB) (w : W) (sid : Id) :
  let r := handler fetch faults d w sid in
  (success (response r) = true ->
   sessionListings sid d <> [] -> updateOk faults = true ->
   is_Some (scraping_sessions d !! sid) ->
   processingStatusOf sid (store r) = Some ProcessingCompleted)
  /\ (sessionListings sid d = [] -> selectOk faults = true ->
      success (response r) = true /\ store r = d).
Proof.
  unfold handler, selectListings. destruct (selectOk faults).
  2:{ cbn. split; [discriminate|]. intros _ [=]. }
  destruct (sessionListings sid d) as [|l ls] eqn:E.
  { cbn. split; [congruence|auto]. }
  split; [|discriminate].
  destruct (processedListings _) as [|row rows] eqn:Eb.
  - cbn [store trace response success]. intros _ _ -> [s Hs].
    unfold processingStatusOf, markProcessed. cbn.
    rewrite lookup_alter_eq, Hs. reflexivity.
  - unfold insertProcessed. destruct (insertOk faults);
      cbn [store trace response success]; [|discriminate].
    intros _ _ -> [s Hs].
    unfold processingStatusOf, markProcessed. cbn.
    rewrite lookup_alter_eq, Hs. reflexivity.
Qed.

(** C9, as the code has it, general part.  A successful run over a session
    that has raw listings reports [processed], [total] and
    [duplicatesRemoved = total - processed]; over a session without raw
    listings the body has [processed = 0] and neither [total] nor
    [duplicatesRemoved]. *)
Lemma summary_of_success (faults : Faults) (d : DB) (w : W) (sid : Id) :
  let ls := sessionListings sid d in
  let r := handler fetch faults d w sid in
  success (response r) = true ->
  (ls <> [] ->
   response r =
     Summary (Z.of_nat (length (omap pushed (trace r))))
             (Z.of_nat (length ls))
             (Z.of_nat (length ls)
              - Z.of_nat (length (omap pushed (trace r)))))
  /\ (ls = [] ->
      processedOf (response r) = Some 0
      /\ totalOf (response r) = None
      /\ duplicatesRemovedOf (response r) = None).
Proof.
  cbv zeta. unfold handler, selectListings. destruct (selectOk faults);
    [|cbn; discriminate].
  destruct (sessionListings sid d) as [|l ls] eqn:E.
  { cbn. intros _. split; [congruence|auto]. }
  pose proof (forLoop_batch fetch sid w (l :: ls)) as Hb.
  destruct (processedListings _) as [|row rows] eqn:Eb.
  - cbn [store trace response success]. rewrite <- Hb. intros _.
    split; [reflexivity|discriminate].
  - unfold insertProcessed. destruct (insertOk faults);
      cbn [store trace response success]; [|discriminate].
    rewrite <- Hb. intros _. split; [reflexivity|discriminate].
Qed.

End Claims.

End EngineFacts.

(** ** The engine on concrete sessions *)

Module EngineCases.
Import JsString Store ProcessListings Spec Cases EngineFacts.

Lemma first_of_each_group_witness :
  exists it,
    iterations (forLoop acmeLive 0%nat (initial tt) (listings acme)) !! 1%nat
      = Some it
    /\ (isDuplicate it = true ->
        request it = None /\ outcome it = None /\ pushed it = None).
Proof.
  eexists. split.
  - vm_compute. reflexivity.
  - refine (proj2 (proj1 (proj2 (first_of_each_group_is_the_candidate
                                   acmeLive 0%nat tt (listings acme)))
                     1%nat _ _)).
    vm_compute. reflexivity.
Defined.


(** C4, where the code departs from it.  [httpbin.org] has no scheme, yet
    the request goes to [httpbin.org] as it is, not to
    [https://httpbin.org]: on a network where the site is live behind
    [https://], the listing is left unverified and dropped. *)
Theorem website_starting_with_http_is_not_prefixed :
  hasScheme "httpbin.org" = false
  /\ url (headRequest "httpbin.org") = "httpbin.org"
  /\ fst (liveSites ["https://httpbin.org"] tt
           {| url := "https://httpbin.org"; method := "HEAD";
              redirect := "follow"; timeout := 5000 |}) = Responded 200
  /\ map (fun it => (url <$> request it, isWebsiteVerified it))
         (trace (handler (liveSites ["https://httpbin.org"]) noFaults
                   httpbin tt 0%nat))
     = [(Some "httpbin.org", false)]
  /\ response (handler (liveSites ["https://httpbin.org"]) noFaults
                 httpbin tt 0%nat) = Summary 0 1 1.
Proof. vm_compute. repeat split; reflexivity. Qed.

(** C7 fails on the code: with a batch that the store refuses, the run
    fails and [processing_status] stays [pending]; and a run also fails
    when the read of the raw listings fails, the batch write being fine. *)
Lemma failed_run_is_not_marked_completed :
  ~ (success (response (handler acmeLive insertFails acme tt 0%nat)) = false ->
     processingStatusOf 0%nat
       (store (handler acmeLive insertFails acme tt 0%nat))
     = Some ProcessingCompleted)
  /\ ~ (success (response (handler acmeLive selectFails acme tt 0%nat)) = false ->
       insertOk selectFails = false).
Proof.
  split; intros H.
  - assert (E : success (response (handler acmeLive insertFails acme tt 0%nat))
                = false) by (vm_compute; reflexivity).
    specialize (H E). vm_compute in H. discriminate.
  - assert (E : success (response (handler acmeLive selectFails acme tt 0%nat))
                = false) by (vm_compute; reflexivity).
    specialize (H E). discriminate.
Qed.

Lemma engine_fails_on_read_or_batch_write_witness :
  store (handler acmeLive insertFails acme tt 0%nat) = acme.
Proof.
  apply (proj2 (engine_fails_on_read_or_batch_write
                  acmeLive insertFails acme tt 0%nat)).
  vm_compute. reflexivity.
Defined.

(** C8 fails on the code: the run over a session without raw listings
    succeeds and leaves [processing_status] at [pending]; so does a run
    whose status write the store does not accept. *)
Lemma empty_session_stays_pending :
  ~ (success (response (handler nothingLive noFaults bare tt 0%nat)) = true ->
     processingStatusOf 0%nat
       (store (handler nothingLive noFaults bare tt 0%nat))
     = Some ProcessingCompleted)
  /\ ~ (success (response (handler acmeLive updateFails acme tt 0%nat)) = true ->
       processingStatusOf 0%nat
         (store (handler acmeLive updateFails acme tt 0%nat))
       = Some ProcessingCompleted).
Proof.
  split; intros H.
  - assert (E : success (response (handler nothingLive noFaults bare tt 0%nat))
                = true) by (vm_compute; reflexivity).
    specialize (H E). vm_compute in H. discriminate.
  - assert (E : success (response (handler acmeLive updateFails acme tt 0%nat))
                = true) by (vm_compute; reflexivity).
    specialize (H E). vm_compute in H. discriminate.
Qed.

Lemma processing_status_after_success_witness :
  processingStatusOf 0%nat (store (handler acmeLive noFaults acme tt 0%nat))
  = Some ProcessingCompleted.
Proof.
  apply (proj1 (processing_status_after_success
                  acmeLive noFaults acme tt 0%nat)).
  - vm_compute. reflexivity.
  - vm_compute. discriminate.
  - reflexivity.
  - vm_compute. eexists. reflexivity.
Defined.

(** C9 fails on the code: in the three-listing scenario with no website
    verified, [processed] is 0 and [duplicatesRemoved] is 3, not 2; and the
    body for a session without raw listings has no [duplicatesRemoved]. *)
Lemma unverified_branch_reports_three :
  processedOf (response (handler nothingLive noFaults acme tt 0%nat)) = Some 0
  /\ duplicatesRemovedOf (response (handler nothingLive noFaults acme tt 0%nat))
     <> Some 2
  /\ success (response (handler nothingLive noFaults bare tt 0%nat)) = true
  /\ duplicatesRemovedOf (response (handler nothingLive noFaults bare tt 0%nat))
     <> Some (0 - 0).
Proof. vm_compute. repeat split; discriminate. Qed.

(** C9, as the code has it.  A successful run over a session that has raw
    listings reports [duplicatesRemoved = total - processed], with [total]
    the number of raw listings and [processed] the number of rows pushed; the
    body for a session without raw listings has [processed = 0] and no
    [total] or [duplicatesRemoved]; in the three-listing scenario the run
    reports [duplicatesRemoved = 2] when the first listing is verified
    ([processed = 1]) and [duplicatesRemoved = 3] when it is not
    ([processed = 0]). *)
Theorem summary_counts :
  (forall (W : Type) (fetch : W -> Request -> FetchOutcome * W)
          (faults : Faults) (d : DB) (w : W) (sid : Id),
     let ls := sessionListings sid d in
     let r := handler fetch faults d w sid in
     success (response r) = true ->
     (ls <> [] ->
      response r =
        Summary (Z.of_nat (length (omap pushed (trace r))))
                (Z.of_nat (length ls))
                (Z.of_nat (length ls)
                 - Z.of_nat (length (omap pushed (trace r)))))
     /\ (ls = [] ->
         processedOf (response r) = Some 0
         /\ totalOf (response r) = None
         /\ duplicatesRemovedOf (response r) = None))
  /\ response (handler acmeLive noFaults acme tt 0%nat) = Summary 1 3 2
  /\ response (handler nothingLive noFaults acme tt 0%nat) = Summary 0 3 3.
Proof.
  split.
  - intros W fetch faults d w sid. apply summary_of_success.
  - split; vm_compute; reflexivity.
Qed.

Lemma summary_counts_witness :
  response (handler acmeLive noFaults acme tt 0%nat)
  = Summary
      (Z.of_nat (length (omap pushed
         (trace (handler acmeLive noFaults acme tt 0%nat)))))
      (Z.of_nat (length (sessionListings 0%nat acme)))
      (Z.of_nat (length (sessionListings 0%nat acme))
       - Z.of_nat (length (omap pushed
           (trace (handler acmeLive noFaults acme tt 0%nat))))).
Proof.
  apply (proj1 summary_counts unit acmeLive noFaults acme tt 0%nat).
  - vm_compute. reflexivity.
  - vm_compute. discriminate.
Defined.

End EngineCases.

(** ** The scraper service *)

Module ScraperFacts.
Import JsString Store Scraper Spec.

(** The query the code computes is the normalized query of the
    specification. *)
Lemma searchQuery_normalizedQuery businessType loc :
  searchQuery businessType loc = normalizedQuery businessType loc.
Proof.
  unfold searchQuery, normalizedQuery.
  rewrite !JsStringFacts.toLowerCase_trim. reflexivity.
Qed.

(** *** The cache *)

Lemma checkCache_none uid ok now d businessType loc :
  cacheMatches uid (searchQuery businessType loc) now d = [] ->
  checkCache uid ok now d businessType loc = None.
Proof.
  unfold checkCache, selectCache. intros ->. destruct ok; reflexivity.
Qed.

Lemma checkCache_one uid now d businessType loc c :
  cacheMatches uid (searchQuery businessType loc) now d = [c] ->
  checkCache uid true now d businessType loc = Some (Cache.session_id c).
Proof. unfold checkCache, selectCache. intros ->. reflexivity. Qed.

(** Two rows or more answer the query: [maybeSingle] makes it an error and
    the lookup a miss. *)
Lemma checkCache_many uid ok now d businessType loc :
  (2 <= length (cacheMatches uid (searchQuery businessType loc) now d))%nat ->
  checkCache uid ok now d businessType loc = None.
Proof.
  unfold checkCache, selectCache. intros H. destruct ok; [|reflexivity].
  destruct (cacheMatches _ _ _ _) as [|c [|c' cs]]; simpl in H; try lia.
  reflexivity.
Qed.

Lemma ownsSession_insertCache uid ok now user q bt loc sid n d u x :
  ownsSession (insertCache uid ok now user q bt loc sid n d) u x
  = ownsSession d u x.
Proof.
  unfold insertCache. destruct (ok && ownsSession d uid sid); reflexivity.
Qed.

Lemma cacheMatches_ext uid q t d d' :
  scraping_sessions d' = scraping_sessions d ->
  cacheMatches uid q t d' =
  filter (fun c => ownsSession d uid (Cache.session_id c) = true
                   /\ Cache.search_query c = q /\ t < Cache.expires_at c)
         (search_cache d').
Proof.
  intros E. unfold cacheMatches. apply list_filter_iff. intros c.
  unfold ownsSession. rewrite E. reflexivity.
Qed.

(** What a lookup sees once an entry was written. *)
Lemma cacheMatches_insertCache uid now user q bt loc sid n d t :
  ownsSession d uid sid = true ->
  cacheMatches uid q t (insertCache uid true now user q bt loc sid n d)
  = cacheMatches uid q t d
    ++ (if bool_decide (t < now + sevenDays)
        then [{| Cache.user_id := user; Cache.search_query := q;
                 Cache.business_type := bt; Cache.location := loc;
                 Cache.session_id := sid; Cache.result_count := n;
                 Cache.cached_at := now;
                 Cache.expires_at := now + sevenDays |}]
        else []).
Proof.
  intros Ho.
  rewrite (cacheMatches_ext uid q t d)
    by (unfold insertCache; rewrite Ho; reflexivity).
  unfold insertCache. rewrite Ho. cbn [andb search_cache].
  rewrite filter_app. f_equal.
  rewrite filter_cons, filter_nil. cbn [Cache.session_id Cache.search_query Cache.expires_at].
  case_bool_decide as Ht.
  - rewrite decide_True by auto. reflexivity.
  - rewrite decide_False by (intros (_ & _ & ?); auto). reflexivity.
Qed.

(** The round trip through the cache: an entry written at [now] for the
    query of [(businessType, loc)] is what a lookup of the same owner
    returns before [now + 7 days], provided no other live entry answers the
    query; from [now + 7 days] on it is not returned. *)
Lemma lookup_after_record uid now user businessType loc sid n d t :
  ownsSession d uid sid = true ->
  cacheMatches uid (searchQuery businessType loc) t d = [] ->
  checkCache uid true t
    (insertCache uid true now user (searchQuery businessType loc)
       businessType loc sid n d)
    businessType loc
  = if bool_decide (t < now + sevenDays) then Some sid else None.
Proof.
  intros Ho Hnone. unfold checkCache, selectCache.
  rewrite cacheMatches_insertCache by exact Ho. rewrite Hnone.
  case_bool_decide; reflexivity.
Qed.

(** *** The buttons *)

Lemma react_ids now s e :
  sessionId (react now s e) = sessionId s /\ userId (react now s e) = userId s.
Proof. destruct e; simpl; auto. Qed.

Lemma during_ids now tk s :
  sessionId (during now tk s) = sessionId s
  /\ userId (during now tk s) = userId s.
Proof.
  unfold during. generalize (clicks tk). intros es. revert s.
  induction es as [|e es IH]; intros s; simpl; [auto|].
  destruct (IH (react now s e)) as [-> ->]. apply react_ids.
Qed.

Lemma whilePaused_ids now env0 s env1 s1 :
  whilePaused now env0 s = Some (env1, s1) ->
  sessionId s1 = sessionId s /\ userId s1 = userId s.
Proof.
  revert s. induction env0 as [|tk env0 IH]; intros s; simpl.
  - destruct (isPaused s); [discriminate|]. intros [= <- <-]. auto.
  - destruct (isPaused s); [|intros [= <- <-]; auto].
    destruct (during_ids now tk s) as [E1 E2].
    destruct (aborted (during now tk s)).
    + intros [= <- <-]. auto.
    + intros H. destruct (IH _ H) as [-> ->]. auto.
Qed.

(** Once the signal is aborted the loop visits nothing more. *)
Lemma forLoop_aborted uid now sid ls i st :
  aborted (scraper st) = true -> forLoop uid now sid ls i st = Some st.
Proof. intros H. destruct ls; simpl; [reflexivity|]. rewrite H. reflexivity. Qed.

(** *** What the loop writes *)

Lemma insertListing_keeps uid ok sid l d :
  scraping_sessions (insertListing uid ok sid l d).2 = scraping_sessions d
  /\ search_cache (insertListing uid ok sid l d).2 = search_cache d.
Proof.
  unfold insertListing. destruct ok; simpl; [|auto].
  destruct (ownsSession d uid sid); simpl; auto.
Qed.

Lemma setTotal_keeps uid ok sid n d :
  search_cache (await uid ok (SessionUpdate sid (setTotal n)) d)
  = search_cache d
  /\ forall x,
       statusOf x (await uid ok (SessionUpdate sid (setTotal n)) d)
       = statusOf x d
       /\ completedAtOf x (await uid ok (SessionUpdate sid (setTotal n)) d)
          = completedAtOf x d.
Proof.
  unfold await, updateSession.
  destruct (ok && ownsSession d uid sid); [|auto].
  split; [reflexivity|]. intros x. unfold statusOf, completedAtOf. simpl.
  destruct (decide (sid = x)) as [->|Hne].
  - rewrite lookup_alter_eq. destruct (scraping_sessions d !! x); auto.
  - rewrite lookup_alter_ne by exact Hne. auto.
Qed.

(** The loop never writes a cache entry and never touches the status or
    the completion instant of a session. *)
Lemma forLoop_silent uid now sid ls i st st' :
  forLoop uid now sid ls i st = Some st' ->
  search_cache (db st') = search_cache (db st)
  /\ sessionId (scraper st') = sessionId (scraper st)
  /\ forall x,
       statusOf x (db st') = statusOf x (db st)
       /\ completedAtOf x (db st') = completedAtOf x (db st).
Proof.
  revert i st. induction ls as [|l ls IH]; intros i st; simpl.
  - intros [= <-]. auto.
  - destruct (aborted (scraper st)); [intros [= <-]; auto|].
    destruct (whilePaused now (env st) (scraper st)) as [[env1 s1]|] eqn:Ew;
      [|discriminate].
    destruct (whilePaused_ids _ _ _ _ _ Ew) as [Es1 _].
    destruct (aborted s1); [intros [= <-]; simpl; auto|].
    destruct (next env1) as [delay env2].
    destruct (next env2) as [ins env3].
    destruct (insertListing_keeps uid (ok ins) sid l (db st)) as [Ks Kc].
    destruct (insertListing uid (ok ins) sid l (db st)) as [reply db3].
    simpl in Ks, Kc.
    assert (Hsame : forall x, statusOf x db3 = statusOf x (db st)
                              /\ completedAtOf x db3 = completedAtOf x (db st)).
    { intros x. unfold statusOf, completedAtOf. rewrite Ks. auto. }
    destruct reply as [data|message].
    + destruct (next env3) as [upd env4].
      destruct (setTotal_keeps uid (ok upd) sid (i + 1) db3) as [Uc Us].
      cbn [await] in Uc, Us.
      intros H. apply IH in H as (Hc & Hi & Hs).
      cbn [db scraper] in Hc, Hi, Hs.
      split; [congruence|]. split.
      * rewrite Hi. rewrite !(proj1 (during_ids _ _ _)). exact Es1.
      * intros x. destruct (Hs x) as [-> ->]. destruct (Us x) as [-> ->].
        apply Hsame.
    + intros H. apply IH in H as (Hc & Hi & Hs).
      cbn [db scraper] in Hc, Hi, Hs.
      split; [congruence|]. split.
      * rewrite Hi. rewrite !(proj1 (during_ids _ _ _)). exact Es1.
      * intros x. destruct (Hs x) as [-> ->]. apply Hsame.
Qed.

Lemma completeSession_ids uid now st :
  sessionId (scraper (completeSession uid now st)) = sessionId (scraper st).
Proof.
  unfold completeSession.
  destruct (sessionId (scraper st)) as [sid|] eqn:Es; [|simpl; exact Es].
  destruct (userId (scraper st)) as [user|]; [|simpl; exact Es].
  destruct (next (env st)) as [upd env1].
  destruct (next env1) as [sel env2].
  destruct (selectSession _ _ _ _) as [row|].
  - destruct (next env2) as [ins env3]. simpl.
    rewrite !(proj1 (during_ids _ _ _)). exact Es.
  - simpl. rewrite !(proj1 (during_ids _ _ _)). exact Es.
Qed.

(** X20.  A run that returns without having asked for processing was cut
    short by the abort signal; it wrote no cache entry and left the status and the
    completion instant of every session as they were. *)
Lemma run_without_processing uid now adapter env0 s d st :
  scrapeListings uid now adapter env0 s d = Some (Returned st None) ->
  aborted (scraper st) = true
  /\ search_cache (db st) = search_cache d
  /\ forall x,
       statusOf x (db st) = statusOf x d
       /\ completedAtOf x (db st) = completedAtOf x d.
Proof.
  unfold scrapeListings.
  destruct (sessionId s) as [sid|] eqn:Es; [|discriminate].
  destruct (next env0) as [post env1].
  destruct adapter as [message| |error|result]; try discriminate.
  - destruct (next env1); discriminate.
  - destruct (next env1) as [body env2].
    destruct (forLoop _ _ _ _ _ _) as [st1|] eqn:El; [|discriminate].
    apply forLoop_silent in El as (Hc & Hi & Hs). simpl in Hc, Hi, Hs.
    destruct (aborted (scraper st1)) eqn:Ea; simpl.
    + intros [= <-]. auto.
    + unfold processListings.
      rewrite completeSession_ids, Hi, !(proj1 (during_ids _ _ _)), Es.
      destruct (next (env (completeSession uid now st1))) as [p e1].
      destruct (ok p); [destruct (next e1)|]; discriminate.
Qed.

(** *** Runs in which nothing fails *)

Lemma during_calm now tk s :
  StopClicked ∉ clicks tk -> aborted (during now tk s) = aborted s.
Proof.
  unfold during. generalize (clicks tk). intros es. revert s.
  induction es as [|e es IH]; intros s Hn; simpl; [reflexivity|].
  rewrite IH by (intros H; apply Hn; right; exact H).
  destruct e; try reflexivity. exfalso. apply Hn. left.
Qed.

Lemma next_undisturbed env0 :
  undisturbed env0 ->
  ok (next env0).1 = true
  /\ (StopClicked ∉ clicks (next env0).1)
  /\ undisturbed (next env0).2.
Proof.
  unfold undisturbed. destruct env0 as [|tk env0]; simpl.
  - intros _. split; [reflexivity|]. split; [apply not_elem_of_nil|constructor].
  - intros H. apply Forall_cons in H as [[? ?] ?]. auto.
Qed.

Lemma whilePaused_undisturbed now env0 s env1 s1 :
  undisturbed env0 -> aborted s = false ->
  whilePaused now env0 s = Some (env1, s1) ->
  undisturbed env1 /\ aborted s1 = false.
Proof.
  revert s. induction env0 as [|tk env0 IH]; intros s Hu Ha; simpl.
  - destruct (isPaused s); [discriminate|]. intros [= <- <-]. auto.
  - destruct (isPaused s); [|intros [= <- <-]; auto].
    apply Forall_cons in Hu as [[_ Hn] Hu].
    pose proof (during_calm now tk s Hn) as E. rewrite Ha in E. rewrite E.
    intros H. exact (IH _ Hu E H).
Qed.

Lemma insertListing_accepted uid sid l d :
  ownsSession d uid sid = true ->
  exists row,
    insertListing uid true sid l d
    = (Data row,
       {| scraping_sessions := scraping_sessions d;
          listings := listings d ++ [row];
          processed_listings := processed_listings d;
          search_cache := search_cache d;
          next_id := S (next_id d) |})
    /\ Listing.session_id row = sid.
Proof.
  intros Ho. unfold insertListing. simpl. rewrite Ho.
  eexists. split; reflexivity.
Qed.

Lemma updateSession_accepted uid sid f d :
  ownsSession d uid sid = true ->
  (forall s, Session.user_id (f s) = Session.user_id s) ->
  let d' := updateSession uid true sid f d in
  listings d' = listings d
  /\ ownsSession d' uid sid = true
  /\ scraping_sessions d' !! sid = f <$> scraping_sessions d !! sid.
Proof.
  intros Ho Hf. unfold updateSession. rewrite Ho. simpl.
  split; [reflexivity|]. unfold ownsSession in *. simpl.
  rewrite lookup_alter_eq.
  destruct (scraping_sessions d !! sid) as [s|]; [|discriminate].
  simpl. rewrite Hf. auto.
Qed.

Lemma sessionListings_snoc sid d row (d' : DB) :
  listings d' = listings d ++ [row] ->
  Listing.session_id row = sid ->
  sessionListings sid d' = sessionListings sid d ++ [row].
Proof.
  intros E Hs. unfold sessionListings. rewrite E, filter_app.
  rewrite filter_cons, filter_nil, decide_True by exact Hs. reflexivity.
Qed.

(** When every request is answered and nobody stops the run, the loop
    persists every listing, and after a listing was written
    [total_records] is the index reached. *)
Lemma forLoop_counts uid now sid ls i st st' :
  undisturbed (env st) -> aborted (scraper st) = false ->
  ownsSession (db st) uid sid = true ->
  forLoop uid now sid ls i st = Some st' ->
  length (sessionListings sid (db st'))
  = (length (sessionListings sid (db st)) + length ls)%nat
  /\ totalRecordsOf sid (db st')
     = match ls with
       | [] => totalRecordsOf sid (db st)
       | _ :: _ => Some (i + Z.of_nat (length ls))
       end
  /\ aborted (scraper st') = false
  /\ ownsSession (db st') uid sid = true
  /\ undisturbed (env st').
Proof.
  revert i st. induction ls as [|l ls IH]; intros i st Hu Ha Ho; simpl.
  - intros [= <-]. rewrite Nat.add_0_r. auto.
  - rewrite Ha.
    destruct (whilePaused now (env st) (scraper st)) as [[env1 s1]|] eqn:Ew;
      [|discriminate].
    destruct (whilePaused_undisturbed _ _ _ _ _ Hu Ha Ew) as [Hu1 Ha1].
    rewrite Ha1.
    destruct (next_undisturbed env1 Hu1) as (_ & Hn2 & Hu2).
    destruct (next env1) as [delay env2]. simpl in Hn2, Hu2.
    destruct (next_undisturbed env2 Hu2) as (Hk3 & Hn3 & Hu3).
    destruct (next env2) as [ins env3]. simpl in Hk3, Hn3, Hu3.
    rewrite Hk3.
    destruct (insertListing_accepted uid sid l (db st) Ho) as (row & -> & Hrow).
    destruct (next_undisturbed env3 Hu3) as (Hk4 & Hn4 & Hu4).
    destruct (next env3) as [upd env4]. simpl in Hk4, Hn4, Hu4.
    rewrite Hk4.
    set (d3 := {| scraping_sessions := scraping_sessions (db st);
                  listings := listings (db st) ++ [row];
                  processed_listings := processed_listings (db st);
                  search_cache := search_cache (db st);
                  next_id := S (next_id (db st)) |}).
    assert (Ho3 : ownsSession d3 uid sid = true) by exact Ho.
    destruct (updateSession_accepted uid sid (setTotal (i + 1)) d3 Ho3
                (fun _ => eq_refl)) as (Hl4 & Ho4 & Hs4).
    set (d4 := updateSession uid true sid (setTotal (i + 1)) d3) in *.
    intros H. apply IH in H; cbn [env scraper db] in *.
    + destruct H as (Hlen & Htot & Hab & Hown & Hund).
      split; [|split; [|auto]].
      * rewrite Hlen.
        rewrite (sessionListings_snoc sid (db st) row d4 Hl4 Hrow).
        rewrite length_app. simpl. lia.
      * rewrite Htot. destruct ls as [|l' ls'].
        -- unfold totalRecordsOf. rewrite Hs4.
           unfold ownsSession in Ho3.
           destruct (scraping_sessions d3 !! sid); [|discriminate].
           simpl. f_equal; lia.
        -- f_equal. simpl length. lia.
    + exact Hu4.
    + rewrite !during_calm by assumption. exact Ha1.
    + exact Ho4.
Qed.

Lemma setCompleted_keeps uid ok sid now d :
  listings (await uid ok (SessionUpdate sid (setCompleted now)) d)
  = listings d
  /\ forall x,
       totalRecordsOf x (await uid ok (SessionUpdate sid (setCompleted now)) d)
       = totalRecordsOf x d.
Proof.
  unfold await, updateSession.
  destruct (ok && ownsSession d uid sid); [|auto].
  split; [reflexivity|]. intros x. unfold totalRecordsOf. simpl.
  destruct (decide (sid = x)) as [->|Hne].
  - rewrite lookup_alter_eq. destruct (scraping_sessions d !! x); auto.
  - rewrite lookup_alter_ne by exact Hne. auto.
Qed.

Lemma insertCache_keeps uid ok now user q bt loc sid n d :
  listings (insertCache uid ok now user q bt loc sid n d) = listings d
  /\ scraping_sessions (insertCache uid ok now user q bt loc sid n d)
     = scraping_sessions d.
Proof.
  unfold insertCache. destruct (ok && ownsSession d uid sid); auto.
Qed.

(** Completing a session changes neither the raw rows nor the counters. *)
Lemma completeSession_keeps uid now st :
  listings (db (completeSession uid now st)) = listings (db st)
  /\ forall x,
       totalRecordsOf x (db (completeSession uid now st))
       = totalRecordsOf x (db st).
Proof.
  unfold completeSession.
  destruct (sessionId (scraper st)) as [sid|]; [|simpl; auto].
  destruct (userId (scraper st)) as [user|]; [|simpl; auto].
  destruct (next (env st)) as [upd env1].
  destruct (setCompleted_keeps uid (ok upd) sid now (db st)) as [Kl Kt].
  destruct (next env1) as [sel env2].
  destruct (selectSession _ _ _ _) as [row|]; [|simpl; auto].
  destruct (next env2) as [ins env3]. cbn [db].
  destruct (Session.search_query row) as [query|]; [|auto].
  destruct (insertCache_keeps uid (ok ins) now user query
              (Session.business_type row) (Session.location row) sid
              (Session.total_records row)
              (await uid (ok upd) (SessionUpdate sid (setCompleted now))
                 (db st))) as [Il Is].
  split; [congruence|]. intros x. unfold totalRecordsOf in *.
  rewrite Is. apply Kt.
Qed.

Lemma processListings_keeps now st :
  db (processListings now st).1 = db st
  /\ (processListings now st).2 = sessionId (scraper st).
Proof.
  unfold processListings. destruct (sessionId (scraper st)); [|auto].
  destruct (next (env st)) as [post env1].
  destruct (ok post); [destruct (next env1)|]; auto.
Qed.


End ScraperFacts.

(** ** The scraper on concrete runs *)

Module ScraperCases.
Import JsString Store Scraper Spec Cases ScraperFacts.

(** C1, where the code departs from it.  The adapter returns two listings;
    the store refuses the insert of the first and accepts the second.  The
    run completes naturally with [total_records = 2] (the index of the last
    listing written, plus one) while one row is persisted for the session. *)
Theorem total_records_counts_attempts :
  exists d,
    storeAfter firstInsertRefused = Some d
    /\ requestedAfter firstInsertRefused = Some (Some 0%nat)
    /\ statusOf 0%nat d = Some Completed
    /\ totalRecordsOf 0%nat d = Some 2
    /\ Z.of_nat (length (sessionListings 0%nat d)) = 1.
Proof. eexists. vm_compute. repeat split; reflexivity. Qed.

(** C5, where the code departs from it.  Two sessions of the same owner for
    the same query completed naturally, the second after a lookup request
    that failed; both entries are live at instant 3000, and the lookup
    returns none of them. *)
Theorem two_live_entries_make_a_miss :
  map (fun c => (Cache.session_id c, Cache.search_query c,
                 bool_decide (3000 < Cache.expires_at c)))
      (cacheMatches 1%nat (searchQuery "Cafe" "Paris") 3000 searchedTwice)
  = [(0%nat, "cafe|paris", true); (1%nat, "cafe|paris", true)]
  /\ statusOf 0%nat searchedTwice = Some Completed
  /\ statusOf 1%nat searchedTwice = Some Completed
  /\ checkCache 1%nat true 3000 searchedTwice "Cafe" "Paris" = None.
Proof. vm_compute. repeat split; reflexivity. Qed.

(** C6, where the code departs from it.  The user clicks stop during the
    delay before the first insert.  The insert that follows the delay is
    still made, the loop ends at its next turn, no cache entry is written
    and no processing is asked for; the session row is left [running] with
    no [completed_at], because the update that [stop] builds is never
    sent. *)
Theorem stop_does_not_complete_the_session :
  exists st,
    stoppedEarly = Some (Returned st None)
    /\ aborted (scraper st) = true
    /\ length (sessionListings 0%nat (db st)) = 1%nat
    /\ search_cache (db st) = []
    /\ statusOf 0%nat (db st) = Some Running
    /\ completedAtOf 0%nat (db st) = Some None.
Proof. eexists. vm_compute. repeat split; reflexivity. Qed.

(** C10.  The normalized query is not injective: the pairs [("a|b", "c")]
    and [("a", "b|c")], whose business types differ even after
    normalization, have the same normalized query; the lookup depends on
    the pair through that string alone, so a lookup for the second pair
    returns the session cached for the first. *)
Theorem normalized_query_is_not_injective :
  toLowerCase (trim "a|b") <> toLowerCase (trim "a")
  /\ searchQuery "a|b" "c" = searchQuery "a" "b|c"
  /\ normalizedQuery "a|b" "c" = normalizedQuery "a" "b|c"
  /\ (forall uid ok now d bt1 loc1 bt2 loc2,
        searchQuery bt1 loc1 = searchQuery bt2 loc2 ->
        checkCache uid ok now d bt1 loc1 = checkCache uid ok now d bt2 loc2)
  /\ (Session.business_type <$> scraping_sessions searchedWithBar !! 0%nat)
     = Some "a|b"
  /\ (Session.location <$> scraping_sessions searchedWithBar !! 0%nat)
     = Some "c"
  /\ checkCache 1%nat true 3000 searchedWithBar "a" "b|c" = Some 0%nat.
Proof.
  split; [vm_compute; discriminate|].
  split; [reflexivity|]. split; [reflexivity|]. split.
  - intros uid ok now d bt1 loc1 bt2 loc2 E. unfold checkCache.
    rewrite E. reflexivity.
  - vm_compute. repeat split; reflexivity.
Qed.

Lemma normalized_query_is_not_injective_witness :
  checkCache 1%nat true 3000 searchedWithBar "a|b" "c"
  = checkCache 1%nat true 3000 searchedWithBar "a" "b|c".
Proof.
  apply (proj1 (proj2 (proj2 (proj2 normalized_query_is_not_injective)))).
  reflexivity.
Defined.

End ScraperCases.

(** ** More on the ingestion loop *)

Module LoopFacts.
Import JsString Store Scraper Spec Turns ScraperFacts.

(** The loop, one listing at a time. *)
Lemma forLoop_cons uid now sid l ls i st :
  forLoop uid now sid (l :: ls) i st =
  if aborted (scraper st) then Some st
  else
    match whilePaused now (env st) (scraper st) with
    | None => None
    | Some (env1, s1) =>
        if aborted s1 then
          Some {| scraper := s1; db := db st; env := env1;
                  progress := progress st |}
        else
          forLoop uid now sid ls (i + 1)
            (turn uid now sid l i (db st) (progress st) env1 s1)
    end.
Proof.
  simpl. destruct (aborted (scraper st)); [reflexivity|].
  destruct (whilePaused now (env st) (scraper st)) as [[env1 s1]|];
    [|reflexivity].
  destruct (aborted s1); [reflexivity|].
  unfold turn.
  destruct (next env1) as [delay env2]. destruct (next env2) as [ins env3].
  destruct (insertListing uid (ok ins) sid l (db st)) as [[data|message] db3];
    [|reflexivity].
  destruct (next env3) as [upd env4]. reflexivity.
Qed.

(** What one turn does to the store and to the page. *)
Lemma turn_effect uid now sid l i d shown env1 s1 :
  let st1 := turn uid now sid l i d shown env1 s1 in
  (exists rows,
     listings (db st1) = listings d ++ rows
     /\ progress st1 = shown ++ rows
     /\ Forall (fun r => Listing.session_id r = sid) rows
     /\ (length rows <= 1)%nat)
  /\ search_cache (db st1) = search_cache d
  /\ processed_listings (db st1) = processed_listings d
  /\ (forall x, setTotal 0 <$> scraping_sessions (db st1) !! x
               = setTotal 0 <$> scraping_sessions d !! x)
  /\ (forall x, x <> sid ->
        scraping_sessions (db st1) !! x = scraping_sessions d !! x)
  /\ (totalRecordsOf sid (db st1) = totalRecordsOf sid d
      \/ totalRecordsOf sid (db st1) = Some (i + 1))
  /\ sessionId (scraper st1) = sessionId s1
  /\ userId (scraper st1) = userId s1.
Proof.
  unfold turn.
  destruct (next env1) as [delay env2]. destruct (next env2) as [ins env3].
  unfold insertListing.
  destruct (ok ins); cbn [negb].
  2:{ cbn. split; [exists []; rewrite !app_nil_r; auto|].
      rewrite !(proj1 (during_ids _ _ _)), !(proj2 (during_ids _ _ _)).
      repeat split; auto. }
  destruct (ownsSession d uid sid) eqn:Ho.
  2:{ cbn. split; [exists []; rewrite !app_nil_r; auto|].
      rewrite !(proj1 (during_ids _ _ _)), !(proj2 (during_ids _ _ _)).
      repeat split; auto. }
  destruct (next env3) as [upd env4]. cbn [db progress scraper].
  rewrite !(proj1 (during_ids _ _ _)), !(proj2 (during_ids _ _ _)).
  unfold await, updateSession. cbn [scraping_sessions].
  change (ownsSession _ uid sid) with (ownsSession d uid sid). rewrite Ho.
  destruct (ok upd); cbn [andb].
  - cbn [listings search_cache processed_listings scraping_sessions].
    split.
    { eexists. split; [reflexivity|]. split; [reflexivity|].
      split; [repeat constructor|simpl; lia]. }
    split; [reflexivity|]. split; [reflexivity|].
    split; [|split; [|split]].
    + intros x. destruct (decide (sid = x)) as [->|Hne].
      * rewrite lookup_alter_eq. destruct (scraping_sessions d !! x); auto.
      * rewrite lookup_alter_ne by exact Hne. reflexivity.
    + intros x Hne. rewrite lookup_alter_ne by auto. reflexivity.
    + right. unfold totalRecordsOf. cbn [scraping_sessions].
      rewrite lookup_alter_eq. unfold ownsSession in Ho.
      destruct (scraping_sessions d !! sid); [reflexivity|discriminate].
    + auto.
  - cbn [listings search_cache processed_listings scraping_sessions].
    split.
    { eexists. split; [reflexivity|]. split; [reflexivity|].
      split; [repeat constructor|simpl; lia]. }
    repeat split; auto.
Qed.

(** What the whole loop does, whatever fails and whatever is clicked. *)
Lemma forLoop_effect uid now sid ls i st st' :
  forLoop uid now sid ls i st = Some st' ->
  (exists rows,
     listings (db st') = listings (db st) ++ rows
     /\ progress st' = progress st ++ rows
     /\ Forall (fun r => Listing.session_id r = sid) rows
     /\ (length rows <= length ls)%nat)
  /\ search_cache (db st') = search_cache (db st)
  /\ processed_listings (db st') = processed_listings (db st)
  /\ (forall x, setTotal 0 <$> scraping_sessions (db st') !! x
               = setTotal 0 <$> scraping_sessions (db st) !! x)
  /\ (forall x, x <> sid ->
        scraping_sessions (db st') !! x = scraping_sessions (db st) !! x)
  /\ (forall t, totalRecordsOf sid (db st) = Some t -> t <= i ->
        exists t', totalRecordsOf sid (db st') = Some t'
                   /\ t <= t' <= i + Z.of_nat (length ls))
  /\ sessionId (scraper st') = sessionId (scraper st)
  /\ userId (scraper st') = userId (scraper st).
Proof.
  revert i st. induction ls as [|l ls IH]; intros i st.
  - simpl. intros [= <-].
    split; [exists []; rewrite !app_nil_r; auto|].
    repeat split; auto. intros t Ht Hi. exists t. split; [exact Ht|lia].
  - rewrite forLoop_cons.
    destruct (aborted (scraper st)).
    { intros [= <-].
      split; [exists []; rewrite !app_nil_r; repeat split; auto; simpl; lia|].
      repeat split; auto. intros t Ht Hi. exists t. split; [exact Ht|lia]. }
    destruct (whilePaused now (env st) (scraper st)) as [[env1 s1]|] eqn:Ew;
      [|discriminate].
    destruct (whilePaused_ids _ _ _ _ _ Ew) as [Ei Eu].
    destruct (aborted s1).
    { intros [= <-]. cbn [db progress scraper].
      split; [exists []; rewrite !app_nil_r; repeat split; auto; simpl; lia|].
      repeat split; auto. intros t Ht Hi. exists t. split; [exact Ht|lia]. }
    intros H. apply IH in H.
    destruct (turn_effect uid now sid l i (db st) (progress st) env1 s1)
      as ((rows1 & Hl1 & Hp1 & Hf1 & Hn1) & Hc1 & Hq1 & Hs1 & Ho1 & Ht1
          & Hi1 & Hu1).
    destruct H as ((rows & Hl & Hp & Hf & Hn) & Hc & Hq & Hs & Ho & Ht
                   & Hi & Hu).
    split.
    { exists (rows1 ++ rows). rewrite Hl, Hl1, Hp, Hp1, !app_assoc.
      split; [reflexivity|]. split; [reflexivity|].
      split; [apply Forall_app; auto|].
      rewrite length_app. simpl. lia. }
    split; [congruence|]. split; [congruence|].
    split; [intros x; rewrite Hs; apply Hs1|].
    split; [intros x Hx; rewrite Ho by exact Hx; apply Ho1; exact Hx|].
    split; [|split; congruence].
    intros t Et Hle.
    destruct Ht1 as [E1|E1].
    + rewrite Et in E1. destruct (Ht t E1 ltac:(lia)) as (t' & Et' & Hb).
      exists t'. split; [exact Et'|]. simpl length. lia.
    + destruct (Ht (i + 1) E1 ltac:(lia)) as (t' & Et' & Hb).
      exists t'. split; [exact Et'|]. simpl length. lia.
Qed.

(** *** Completing a session *)

Lemma setCompleted_effect uid ok sid now d :
  let d' := await uid ok (SessionUpdate sid (setCompleted now)) d in
  listings d' = listings d
  /\ search_cache d' = search_cache d
  /\ processed_listings d' = processed_listings d
  /\ (forall x, setCompleted 0 <$> scraping_sessions d' !! x
               = setCompleted 0 <$> scraping_sessions d !! x)
  /\ (forall x, x <> sid ->
        scraping_sessions d' !! x = scraping_sessions d !! x)
  /\ (statusOf sid d' = statusOf sid d
      \/ statusOf sid d' = Some Completed).
Proof.
  unfold await, updateSession.
  destruct (ok && ownsSession d uid sid); [|cbn; repeat split; auto].
  cbn [listings search_cache processed_listings scraping_sessions].
  split; [reflexivity|]. split; [reflexivity|]. split; [reflexivity|].
  split; [|split].
  - intros x. destruct (decide (sid = x)) as [->|Hne].
    + rewrite lookup_alter_eq. destruct (scraping_sessions d !! x); auto.
    + rewrite lookup_alter_ne by exact Hne. reflexivity.
  - intros x Hne. rewrite lookup_alter_ne by auto. reflexivity.
  - unfold statusOf. cbn [scraping_sessions]. rewrite lookup_alter_eq.
    destruct (scraping_sessions d !! sid); [right|left]; reflexivity.
Qed.

Lemma insertCache_effect uid ok now user q bt loc sid n d :
  let d' := insertCache uid ok now user q bt loc sid n d in
  listings d' = listings d
  /\ processed_listings d' = processed_listings d
  /\ scraping_sessions d' = scraping_sessions d
  /\ exists entries,
       search_cache d' = search_cache d ++ entries
       /\ (length entries <= 1)%nat
       /\ Forall (fun c => Cache.session_id c = sid
                           /\ Cache.search_query c = q
                           /\ Cache.expires_at c = now + sevenDays) entries.
Proof.
  unfold insertCache. destruct (ok && ownsSession d uid sid); cbn.
  - repeat split; auto. eexists. split; [reflexivity|].
    split; [simpl; lia|]. repeat constructor.
  - repeat split; auto. exists []. rewrite app_nil_r. split; [auto|].
    split; [simpl; lia|constructor].
Qed.

(** Completing a session, whatever fails: the raw rows, the processed rows
    and the page are left alone; of the session rows only the status and
    the completion instant of the session at hand can change, the status to
    [completed]; at most one cache entry is added, for that session and
    with seven days to live. *)
Lemma completeSession_effect uid now st :
  let st' := completeSession uid now st in
  listings (db st') = listings (db st)
  /\ processed_listings (db st') = processed_listings (db st)
  /\ progress st' = progress st
  /\ (forall x, setCompleted 0 <$> scraping_sessions (db st') !! x
               = setCompleted 0 <$> scraping_sessions (db st) !! x)
  /\ (forall x,
        statusOf x (db st') = statusOf x (db st)
        \/ (sessionId (scraper st) = Some x
            /\ statusOf x (db st') = Some Completed))
  /\ exists entries,
       search_cache (db st') = search_cache (db st) ++ entries
       /\ (length entries <= 1)%nat
       /\ Forall (fun c => sessionId (scraper st) = Some (Cache.session_id c)
                           /\ Cache.expires_at c = now + sevenDays) entries.
Proof.
  assert (Hnone : forall d : DB,
            exists entries : list Cache.t,
              search_cache d = search_cache d ++ entries
              /\ (length entries <= 1)%nat
              /\ Forall (fun c => sessionId (scraper st)
                                   = Some (Cache.session_id c)
                                   /\ Cache.expires_at c = now + sevenDays)
                        entries).
  { intros d. exists []. rewrite app_nil_r. split; [auto|].
    split; [simpl; lia|constructor]. }
  unfold completeSession.
  destruct (sessionId (scraper st)) as [sid|] eqn:Es;
    [|cbn; repeat split; auto].
  destruct (userId (scraper st)) as [user|];
    [|cbn; repeat split; auto].
  destruct (next (env st)) as [upd env1].
  destruct (setCompleted_effect uid (ok upd) sid now (db st))
    as (Kl & Kc & Kq & Ks & Ko & Kt).
  assert (Hstat : forall x,
            statusOf x (await uid (ok upd) (SessionUpdate sid (setCompleted now))
                          (db st)) = statusOf x (db st)
            \/ (Some sid = Some x
                /\ statusOf x (await uid (ok upd)
                                 (SessionUpdate sid (setCompleted now)) (db st))
                   = Some Completed)).
  { intros x. destruct (decide (x = sid)) as [->|Hne].
    - destruct Kt as [E|E]; [left|right]; auto.
    - left. unfold statusOf. rewrite Ko by exact Hne. reflexivity. }
  destruct (next env1) as [sel env2].
  destruct (selectSession _ _ _ _) as [row|];
    [|cbn [db progress]; repeat split; auto; rewrite Kc; apply Hnone].
  destruct (next env2) as [ins env3]. cbn [db progress].
  destruct (Session.search_query row) as [query|];
    [|repeat split; auto; rewrite Kc; apply Hnone].
  destruct (insertCache_effect uid (ok ins) now user query
              (Session.business_type row) (Session.location row) sid
              (Session.total_records row)
              (await uid (ok upd) (SessionUpdate sid (setCompleted now))
                 (db st))) as (Il & Iq & Is & entries & Ic & In1 & If).
  split; [congruence|]. split; [congruence|]. split; [reflexivity|].
  split; [intros x; rewrite Is; apply Ks|].
  split; [intros x; unfold statusOf in *; rewrite Is; apply Hstat|].
  exists entries. rewrite Ic, Kc. split; [reflexivity|].
  split; [exact In1|].
  eapply Forall_impl; [exact If|]. intros c (E1 & _ & E3).
  rewrite E1. auto.
Qed.

Lemma processListings_effect now st :
  db (processListings now st).1 = db st
  /\ progress (processListings now st).1 = progress st.
Proof.
  unfold processListings. destruct (sessionId (scraper st)); [|auto].
  destruct (next (env st)) as [post env1].
  destruct (ok post); [destruct (next env1)|]; auto.
Qed.

(** The scraper when the loop starts: the clicks during the request to the
    adapter and during the reading of its answer have been handled. *)
Lemma scrapeListings_successful uid now result env0 s d st requested :
  scrapeListings uid now (Successful result) env0 s d
  = Some (Returned st requested) ->
  exists sid st1,
    sessionId s = Some sid
    /\ forLoop uid now sid (default [] result) 0
         {| scraper := during now (next (next env0).2).1
                         (during now (next env0).1 s);
            db := d; env := (next (next env0).2).2; progress := [] |}
       = Some st1
    /\ ((aborted (scraper st1) = true /\ st = st1 /\ requested = None)
        \/ (aborted (scraper st1) = false
            /\ st = (processListings now (completeSession uid now st1)).1
            /\ requested = Some sid)).
Proof.
  unfold scrapeListings.
  destruct (sessionId s) as [sid|] eqn:Es; [|discriminate].
  destruct (next env0) as [post env1]. cbn [fst snd].
  destruct (next env1) as [body env2]. cbn [fst snd].
  change (match result with Some l => l | None => [] end)
    with (default [] result).
  destruct (forLoop _ _ _ _ _ _) as [st1|] eqn:El; [|discriminate].
  intros H. exists sid, st1.
  split; [reflexivity|]. split; [exact El|].
  destruct (aborted (scraper st1)); cbn [negb] in H.
  - left. injection H as <- <-. auto.
  - right. destruct (processListings_keeps now (completeSession uid now st1))
      as [_ Pr].
    destruct (processListings now (completeSession uid now st1))
      as [st2 req] eqn:Ep. cbn [fst snd] in *.
    injection H as <- <-. split; [reflexivity|]. split; [reflexivity|].
    rewrite Pr, completeSession_ids.
    apply forLoop_effect in El as (_ & _ & _ & _ & _ & _ & Hi & _).
    rewrite Hi. cbn [scraper]. rewrite !(proj1 (during_ids _ _ _)).
    exact Es.
Qed.

End LoopFacts.

(** ** Whole runs of the scraper *)

Module RunFacts.
Import JsString Store Scraper Spec Turns ScraperFacts LoopFacts.


(** X2.  For a session that starts at [total_records = 0], the counter after
    the run is at least 0 and at most the number of listings the adapter
    returned, whatever fails and whatever the user clicks. *)
Theorem total_records_is_bounded
    uid now result env0 s d st requested sid :
  sessionId s = Some sid ->
  totalRecordsOf sid d = Some 0 ->
  scrapeListings uid now (Successful result) env0 s d
  = Some (Returned st requested) ->
  exists t,
    totalRecordsOf sid (db st) = Some t
    /\ 0 <= t <= Z.of_nat (length (default [] result)).
Proof.
  intros Es Ht H.
  apply scrapeListings_successful in H
    as (sid' & st1 & Es' & El & Hend).
  assert (sid' = sid) as -> by congruence.
  apply forLoop_effect in El as (_ & _ & _ & _ & _ & Hb & _).
  destruct (Hb 0 Ht ltac:(lia)) as (t & Et & Hle). exists t.
  split; [|lia].
  destruct Hend as [(_ & -> & _)|(_ & -> & _)]; [exact Et|].
  destruct (processListings_effect now (completeSession uid now st1))
    as [-> _].
  rewrite (proj2 (completeSession_keeps uid now st1)). exact Et.
Qed.


(** *** From a search to the next lookup *)

Lemma startSession_started uid ok d s0 bt loc user sid s1 d1 :
  startSession uid ok d s0 bt loc user = (Data sid, s1, d1) ->
  user = uid
  /\ sessionId s1 = Some sid /\ userId s1 = Some uid
  /\ aborted s1 = false /\ isPaused s1 = false /\ isRunning s1 = true
  /\ scraping_sessions d1 !! sid
     = Some {| Session.user_id := Some uid;
               Session.business_type := bt;
               Session.location := loc;
               Session.search_query := Some (searchQuery bt loc);
               Session.status := Running;
               Session.total_records := 0;
               Session.processing_status := Pending;
               Session.completed_at := None |}
  /\ ownsSession d1 uid sid = true
  /\ listings d1 = listings d
  /\ processed_listings d1 = processed_listings d
  /\ search_cache d1 = search_cache d
  /\ (forall x, x <> sid ->
        scraping_sessions d1 !! x = scraping_sessions d !! x).
Proof.
  unfold startSession, insertSession. destruct ok; [|discriminate].
  cbn [negb Session.user_id]. case_bool_decide as Hu; [|discriminate].
  injection Hu as ->. intros [= <- <- <-].
  cbn. unfold ownsSession. cbn. rewrite lookup_insert_eq.
  rewrite bool_decide_eq_true_2 by reflexivity.
  repeat split; auto.
  intros x Hx. rewrite lookup_insert_ne by auto. reflexivity.
Qed.

Lemma ownsSession_same (d d' : DB) (f : Session.t -> Session.t) :
  (forall s, Session.user_id (f s) = Session.user_id s) ->
  (forall x, f <$> scraping_sessions d' !! x = f <$> scraping_sessions d !! x) ->
  forall u x, ownsSession d' u x = ownsSession d u x.
Proof.
  intros Hf H u x. unfold ownsSession. specialize (H x).
  destruct (scraping_sessions d' !! x) as [a|],
           (scraping_sessions d !! x) as [b|]; try discriminate;
    [|reflexivity].
  injection H as H. apply (f_equal Session.user_id) in H.
  rewrite !Hf in H. rewrite H. reflexivity.
Qed.

(** Completing a session when every request is answered: one entry is
    written, for the query the session row holds. *)
Lemma completeSession_accepted uid now st sid row q :
  sessionId (scraper st) = Some sid -> userId (scraper st) = Some uid ->
  undisturbed (env st) ->
  scraping_sessions (db st) !! sid = Some row ->
  Session.user_id row = Some uid ->
  Session.search_query row = Some q ->
  search_cache (db (completeSession uid now st))
  = search_cache (db st)
    ++ [{| Cache.user_id := uid; Cache.search_query := q;
           Cache.business_type := Session.business_type row;
           Cache.location := Session.location row;
           Cache.session_id := sid;
           Cache.result_count := Session.total_records row;
           Cache.cached_at := now; Cache.expires_at := now + sevenDays |}].
Proof.
  intros Es Eu Hu Hrow Huser Hq. unfold completeSession. rewrite Es, Eu.
  destruct (next_undisturbed _ Hu) as (Hk1 & _ & Hu1).
  destruct (next (env st)) as [upd env1]. cbn [fst snd] in Hk1, Hu1.
  destruct (next_undisturbed _ Hu1) as (Hk2 & _ & Hu2).
  destruct (next env1) as [sel env2]. cbn [fst snd] in Hk2, Hu2.
  destruct (next_undisturbed _ Hu2) as (Hk3 & _ & _).
  destruct (next env2) as [ins env3]. cbn [fst snd] in Hk3.
  rewrite Hk1, Hk2.
  assert (Ho : ownsSession (db st) uid sid = true).
  { unfold ownsSession. rewrite Hrow, Huser.
    apply bool_decide_eq_true_2. reflexivity. }
  destruct (updateSession_accepted uid sid (setCompleted now) (db st) Ho
              (fun _ => eq_refl)) as (_ & Ho1 & Hs1).
  cbn [await]. unfold selectSession. rewrite Ho1. cbn [andb].
  rewrite Hs1, Hrow. cbn [fmap option_fmap option_map db].
  cbn [setCompleted Session.search_query Session.business_type
       Session.location Session.total_records].
  rewrite Hq, Hk3. unfold insertCache. rewrite Ho1. cbn [andb search_cache].
  unfold updateSession. rewrite Ho. reflexivity.
Qed.

(** X4.  A search that starts a session and runs to its end with every
    request answered and no stop is found again by the next lookup of the
    same owner: for any business type and location with the same normalized
    query, and as long as no other live entry answers that query, the
    lookup returns the session of the search before seven days have passed
    since its completion, and nothing from then on. *)
Theorem a_completed_search_is_found_again
    uid ok now bt loc result env0 d s0 sid s1 d1 st requested bt' loc' t :
  startSession uid ok d s0 bt loc uid = (Data sid, s1, d1) ->
  undisturbed env0 ->
  scrapeListings uid now (Successful result) env0 s1 d1
  = Some (Returned st requested) ->
  searchQuery bt' loc' = searchQuery bt loc ->
  cacheMatches uid (searchQuery bt loc) t d1 = [] ->
  checkCache uid true t (db st) bt' loc'
  = if bool_decide (t < now + sevenDays) then Some sid else None.
Proof.
  intros Hstart Hu Hrun Hq Hnone.
  apply startSession_started in Hstart
    as (_ & Es1 & Eu1 & Ea1 & _ & _ & Hrow & Ho1 & _).
  apply scrapeListings_successful in Hrun as (sid' & st1 & Es' & El & Hend).
  assert (sid' = sid) as -> by congruence.
  destruct (next_undisturbed _ Hu) as (_ & Hn1 & Hu1).
  destruct (next_undisturbed _ Hu1) as (_ & Hn2 & Hu2).
  pose proof El as Hcount.
  apply forLoop_counts in Hcount; cbn [env scraper db];
    [|exact Hu2|rewrite !during_calm by assumption; exact Ea1|exact Ho1].
  destruct Hcount as (_ & _ & Hab & Hown & Hund).
  apply forLoop_effect in El as (_ & Hc & _ & Hs & _ & _ & Hi & Hui).
  cbn [db scraper] in Hc, Hs, Hi, Hui.
  rewrite !(proj1 (during_ids _ _ _)) in Hi.
  rewrite !(proj2 (during_ids _ _ _)) in Hui.
  destruct Hend as [(Hab' & _)|(_ & -> & _)]; [congruence|].
  (* the row of the session when the loop is over *)
  pose proof (Hs sid) as Hsid. rewrite Hrow in Hsid.
  destruct (scraping_sessions (db st1) !! sid) as [row|] eqn:Erow;
    [|discriminate].
  injection Hsid as Huser Hbt Hloc Hquery _ _ _.
  unfold checkCache, selectCache. rewrite Hq.
  destruct (processListings_effect now (completeSession uid now st1))
    as [-> _].
  assert (Hsame : forall x,
            ownsSession (db (completeSession uid now st1)) uid x
            = ownsSession d1 uid x).
  { intros x.
    rewrite (ownsSession_same (db st1) _ (setCompleted 0)
               (fun _ => eq_refl)
               (proj1 (proj2 (proj2 (proj2
                  (completeSession_effect uid now st1)))))).
    apply (ownsSession_same d1 _ (setTotal 0) (fun _ => eq_refl) Hs). }
  assert (Hm : cacheMatches uid (searchQuery bt loc) t
                 (db (completeSession uid now st1))
               = filter (fun c => ownsSession d1 uid (Cache.session_id c) = true
                                  /\ Cache.search_query c = searchQuery bt loc
                                  /\ t < Cache.expires_at c)
                        (search_cache (db (completeSession uid now st1)))).
  { unfold cacheMatches. apply list_filter_iff. intros c.
    rewrite Hsame. reflexivity. }
  rewrite Hm.
  rewrite (completeSession_accepted uid now st1 sid row
             (searchQuery bt loc))
    by (first [congruence | assumption]).
  rewrite Hc, filter_app.
  change (filter _ (search_cache d1))
    with (cacheMatches uid (searchQuery bt loc) t d1).
  rewrite Hnone, app_nil_l, filter_cons, filter_nil.
  cbn [Cache.session_id Cache.search_query Cache.expires_at].
  case_bool_decide as Ht.
  - rewrite decide_True by auto. reflexivity.
  - rewrite decide_False by (intros (_ & _ & ?); auto). reflexivity.
Qed.

(** *** Pause and stop *)

Lemma react_holding now s e :
  e <> ResumeClicked -> e <> StopClicked ->
  isPaused s = true ->
  isPaused (react now s e) = true /\ aborted (react now s e) = aborted s.
Proof. destruct e; simpl; intros; try congruence; auto. Qed.

Lemma during_holding now tk s :
  holding tk -> isPaused s = true ->
  isPaused (during now tk s) = true
  /\ aborted (during now tk s) = aborted s.
Proof.
  unfold holding, during. generalize (clicks tk). intros es. revert s.
  induction es as [|e es IH]; intros s [Hr Hs] Hp; simpl; [auto|].
  destruct (react_holding now s e) as [Hp' Ha'].
  - intros ->. apply Hr. left.
  - intros ->. apply Hs. left.
  - exact Hp.
  - destruct (IH (react now s e)) as [-> ->]; [|exact Hp'|auto].
    split; intros H; [apply Hr|apply Hs]; right; exact H.
Qed.

Lemma whilePaused_holding now held rest s :
  Forall holding held -> isPaused s = true -> aborted s = false ->
  whilePaused now (held ++ rest) s
  = whilePaused now rest (fold_left (fun s tk => during now tk s) held s)
  /\ isPaused (fold_left (fun s tk => during now tk s) held s) = true
  /\ aborted (fold_left (fun s tk => during now tk s) held s) = false.
Proof.
  revert s. induction held as [|tk held IH]; intros s Hh Hp Ha; simpl.
  - auto.
  - apply Forall_cons in Hh as [Htk Hh].
    destruct (during_holding now tk s Htk Hp) as [Hp' Ha'].
    rewrite Hp, Ha', Ha. apply IH; [exact Hh|exact Hp'|congruence].
Qed.

(** X5.  While the scraper is paused and the user neither resumes nor stops,
    the loop only polls: however many polls pass, the store and the page
    are as they were, and the scraper is still paused and not aborted when
    the loop goes on from there. *)
Theorem a_paused_loop_only_waits uid now sid l ls i st held rest :
  aborted (scraper st) = false -> isPaused (scraper st) = true ->
  env st = held ++ rest -> Forall holding held ->
  let s' := fold_left (fun s tk => during now tk s) held (scraper st) in
  forLoop uid now sid (l :: ls) i st
  = forLoop uid now sid (l :: ls) i
      {| scraper := s'; db := db st; env := rest; progress := progress st |}
  /\ isPaused s' = true /\ aborted s' = false.
Proof.
  intros Ha Hp He Hh. cbv zeta.
  destruct (whilePaused_holding now held rest (scraper st) Hh Hp Ha)
    as (Hw & Hp' & Ha').
  split; [|auto].
  rewrite !forLoop_cons. cbn [scraper env db progress].
  rewrite Ha, Ha', He, Hw. reflexivity.
Qed.

Lemma react_stopped now s e :
  abortController s = Some true ->
  abortController (react now s e) = Some true.
Proof. intros H. destruct e; simpl; rewrite ?H; reflexivity. Qed.

Lemma during_stop now tk s :
  is_Some (abortController s) -> StopClicked ∈ clicks tk ->
  aborted (during now tk s) = true.
Proof.
  unfold during. generalize (clicks tk). intros es. revert s.
  induction es as [|e es IH]; intros s Hc Hin.
  - inversion Hin.
  - simpl. apply elem_of_cons in Hin as [<-|Hin].
    + destruct Hc as [flag Hc].
      assert (H : abortController (react now s StopClicked) = Some true)
        by (simpl; rewrite Hc; reflexivity).
      clear IH. revert H. generalize (react now s StopClicked). clear.
      induction es as [|e es IH]; intros s H; simpl.
      * unfold aborted. rewrite H. reflexivity.
      * apply IH, react_stopped, H.
    + apply IH; [|exact Hin].
      destruct Hc as [flag Hc]. destruct e; simpl; rewrite ?Hc; eauto.
Qed.

(** X6.  A stop clicked while the scraper is paused ends the loop at that
    poll: the listing at hand and those after it are not inserted, and the
    store and the page are as they were. *)
Theorem stop_while_paused_ends_the_loop uid now sid l ls i st tk rest :
  aborted (scraper st) = false -> isPaused (scraper st) = true ->
  is_Some (abortController (scraper st)) ->
  env st = tk :: rest -> StopClicked ∈ clicks tk ->
  forLoop uid now sid (l :: ls) i st
  = Some {| scraper := during now tk (scraper st); db := db st;
            env := rest; progress := progress st |}.
Proof.
  intros Ha Hp Hc He Hin. rewrite forLoop_cons, Ha, He. simpl.
  rewrite Hp, (during_stop now tk (scraper st) Hc Hin). cbn iota.
  rewrite (during_stop now tk (scraper st) Hc Hin). reflexivity.
Qed.

End RunFacts.

(** ** More on the dedup and verification engine *)

Module BatchFacts.
Import JsString Store ProcessListings Spec Rows EngineFacts.

Section Batch.
Context {W : Type}.
Variable fetch : W -> Request -> FetchOutcome * W.

Lemma visit_row sid seen w l row :
  pushed (visit fetch sid seen w l).1 = Some row ->
  copyOf row l
  /\ Processed.session_id row = sid
  /\ rowKey row = companyKey l
  /\ has seen (companyKey l) = false
  /\ truthy (Listing.website l) = true
  /\ live (Processed.website_status_code row) = true.
Proof.
  unfold visit.
  destruct (has seen (companyKey l)) eqn:Ed;
    [rewrite andb_false_r; simpl; discriminate|].
  rewrite andb_true_r. cbn [negb andb].
  destruct (truthy (Listing.website l)) eqn:Et; [|simpl; discriminate].
  destruct (fetch w _) as [[status|message] w']; simpl; [|discriminate].
  destruct (live status) eqn:El; [|discriminate].
  intros [= <-]. unfold copyOf, rowKey, companyKey. simpl. auto 10.
Qed.

Lemma has_mono (seen : gmap string bool) k k' :
  has seen k' = true -> has (<[k := true]> seen) k' = true.
Proof. intros H. apply has_insert. auto. Qed.

(** Along the loop the keys of the rows pushed are keys seen, and no two
    rows have the same key. *)
Lemma forLoop_distinct sid w ls :
  let st := forLoop fetch sid (initial w) ls in
  (forall row, row ∈ processedListings st ->
     has (seenCompanies st) (rowKey row) = true)
  /\ NoDup (map rowKey (processedListings st)).
Proof.
  induction ls as [|l ls IH] using rev_ind.
  - simpl. split; [intros row H; inversion H|constructor].
  - cbv zeta in *. rewrite forLoop_snoc. unfold loopBody.
    destruct IH as [Hseen Hnd].
    pose proof (visit_isDuplicate fetch sid
                  (seenCompanies (forLoop fetch sid (initial w) ls))
                  (world (forLoop fetch sid (initial w) ls)) l) as Hd.
    pose proof (visit_row sid
                  (seenCompanies (forLoop fetch sid (initial w) ls))
                  (world (forLoop fetch sid (initial w) ls)) l) as Hrow.
    destruct (visit fetch sid _ _ l) as [it w1]. cbn [fst] in Hd, Hrow.
    cbn [seenCompanies processedListings].
    destruct (pushed it) as [row|] eqn:Ep.
    + destruct (Hrow row eq_refl) as (_ & _ & Hk & Hnew & _).
      rewrite Hd, Hnew. cbn [negb option_list]. split.
      * intros r Hr. apply elem_of_app in Hr as [Hr|Hr].
        -- apply has_mono, Hseen, Hr.
        -- apply list_elem_of_singleton in Hr as ->. rewrite Hk.
           apply has_insert. auto.
      * rewrite map_app. apply NoDup_app. split; [exact Hnd|].
        split; [|simpl; apply NoDup_singleton].
        intros k Hin Hk'. simpl in Hk'.
        apply list_elem_of_singleton in Hk' as ->.
        apply list_elem_of_fmap in Hin as (r & Hr & Hin).
        apply Hseen in Hin. rewrite <- Hr, Hk in Hin. congruence.
    + cbn [option_list]. rewrite app_nil_r. split; [|exact Hnd].
      intros r Hr. destruct (negb (isDuplicate it)); [|auto].
      apply has_mono, Hseen, Hr.
Qed.

Lemma handler_batch faults d w sid :
  let r := handler fetch faults d w sid in
  exists rows,
    processed_listings (store r) = processed_listings d ++ rows
    /\ (rows = [] \/
        rows = processedListings
                 (forLoop fetch sid (initial w) (sessionListings sid d))).
Proof.
  cbv zeta. pose proof (handler_rows fetch faults d w sid) as H.
  cbv zeta in H. rewrite handler_trace in H.
  eexists. split; [exact H|].
  destruct (success _); [|auto]. destruct (selectOk faults); [|auto].
  right. symmetry. apply forLoop_batch.
Qed.

(** X7.  The rows a run adds to [processed_listings] have pairwise distinct
    dedup keys: of the raw listings of one company at one address, at most
    one becomes a processed row. *)
Theorem processed_rows_have_distinct_keys
    (faults : Faults) (d : DB) (w : W) (sid : Id) :
  exists rows,
    processed_listings (store (handler fetch faults d w sid))
    = processed_listings d ++ rows
    /\ NoDup (map rowKey rows).
Proof.
  destruct (handler_batch faults d w sid) as (rows & Hr & [->| ->]);
    eexists; (split; [exact Hr|]).
  - constructor.
  - apply (forLoop_distinct sid w (sessionListings sid d)).
Qed.

(** X8.  Every row a run adds to [processed_listings] is a copy (name,
    rating, website, address, phone) of a raw listing of the session, which
    has a website; the row carries the session of the run and a status code
    in [200,400). *)
Theorem processed_rows_copy_live_listings
    (faults : Faults) (d : DB) (w : W) (sid : Id) :
  exists rows,
    processed_listings (store (handler fetch faults d w sid))
    = processed_listings d ++ rows
    /\ forall row, row ∈ rows ->
         Processed.session_id row = sid
         /\ verifiedStatus (Processed.website_status_code row)
         /\ exists l,
              l ∈ sessionListings sid d /\ copyOf row l
              /\ truthy (Listing.website l) = true.
Proof.
  destruct (handler_batch faults d w sid) as (rows & Hr & [->| ->]);
    eexists; (split; [exact Hr|]).
  - intros row H. inversion H.
  - intros row Hrow. rewrite forLoop_batch in Hrow.
    apply list_elem_of_omap in Hrow as (it & Hit & Hp).
    apply list_elem_of_lookup in Hit as [i Hit].
    assert (Hi : (i < length (sessionListings sid d))%nat).
    { rewrite <- (forLoop_length fetch sid w).
      exact (lookup_lt_Some _ _ _ Hit). }
    destruct (lookup_lt_is_Some_2 _ i Hi) as [l Hl].
    destruct (forLoop_iteration fetch sid w _ i l it Hl Hit)
      as (seen & w0 & -> & _).
    destruct (visit_row sid seen w0 l row Hp) as (Hc & Hs & _ & _ & Ht & Hv).
    split; [exact Hs|]. split; [apply live_verifiedStatus, Hv|].
    exists l. split; [|auto]. apply list_elem_of_lookup. eauto.
Qed.

(** *** Running the engine again *)

Lemma visit_stateless sid seen w w' l :
  stateless fetch ->
  (visit fetch sid seen w l).1 = (visit fetch sid seen w' l).1.
Proof.
  intros Hs. unfold visit.
  destruct (truthy _ && negb _); [|reflexivity].
  pose proof (Hs w w' (headRequest (orEmpty (Listing.website l)))) as E.
  destruct (fetch w _) as [o1 w1], (fetch w' _) as [o2 w2].
  cbn [fst] in E. subst o2. destruct o1; reflexivity.
Qed.

Lemma forLoop_stateless sid ls st st' :
  stateless fetch ->
  seenCompanies st = seenCompanies st' ->
  processedListings st = processedListings st' ->
  iterations st = iterations st' ->
  seenCompanies (forLoop fetch sid st ls)
  = seenCompanies (forLoop fetch sid st' ls)
  /\ processedListings (forLoop fetch sid st ls)
     = processedListings (forLoop fetch sid st' ls)
  /\ iterations (forLoop fetch sid st ls)
     = iterations (forLoop fetch sid st' ls).
Proof.
  intros Hs. revert st st'. induction ls as [|l ls IH]; intros st st' E1 E2 E3.
  - simpl. auto.
  - simpl. apply IH; unfold loopBody;
      pose proof (visit_stateless sid (seenCompanies st) (world st)
                    (world st') l Hs) as Ev;
      rewrite E1 in *;
      destruct (visit fetch sid (seenCompanies st') (world st) l) as [it w1],
               (visit fetch sid (seenCompanies st') (world st') l) as [it' w2];
      cbn [fst] in Ev; subst it'; simpl; congruence.
Qed.

Lemma handler_listings faults d w sid :
  listings (store (handler fetch faults d w sid)) = listings d.
Proof.
  unfold handler, selectListings. destruct (selectOk faults); [|reflexivity].
  destruct (sessionListings sid d) as [|l ls]; [reflexivity|].
  destruct (processedListings _) as [|row rows].
  - cbn. unfold markProcessed. destruct (updateOk faults); reflexivity.
  - unfold insertProcessed. destruct (insertOk faults); cbn; [|reflexivity].
    unfold markProcessed. destruct (updateOk faults); reflexivity.
Qed.

(** X9.  The engine does not look at what it wrote before.  On a network
    whose answers do not depend on earlier requests, a second successful run
    over the same session takes the same decisions and returns the same
    summary as the first, and appends the same rows again: every processed
    row of the session is then in the store twice. *)
Theorem a_second_run_writes_the_rows_again
    (f1 f2 : Faults) (d : DB) (w : W) (sid : Id) :
  stateless fetch ->
  let r1 := handler fetch f1 d w sid in
  let r2 := handler fetch f2 (store r1) (network r1) sid in
  success (response r1) = true -> success (response r2) = true ->
  trace r2 = trace r1
  /\ response r2 = response r1
  /\ processed_listings (store r2)
     = processed_listings d ++ omap pushed (trace r1)
       ++ omap pushed (trace r1).
Proof.
  intros Hs r1 r2 H1 H2.
  assert (Hl : sessionListings sid (store r1) = sessionListings sid d).
  { unfold sessionListings, r1. rewrite handler_listings. reflexivity. }
  assert (Ok1 : selectOk f1 = true).
  { unfold r1, handler, selectListings in H1.
    destruct (selectOk f1); [reflexivity|discriminate]. }
  assert (Ok2 : selectOk f2 = true).
  { unfold r2, handler, selectListings in H2.
    destruct (selectOk f2); [reflexivity|discriminate]. }
  destruct (forLoop_stateless sid (sessionListings sid d)
              (initial (network r1)) (initial w) Hs eq_refl eq_refl eq_refl)
    as (_ & Eb & Et).
  assert (Htrace : trace r2 = trace r1).
  { unfold r2. rewrite handler_trace, Ok2, Hl.
    unfold r1. rewrite handler_trace, Ok1. exact Et. }
  split; [exact Htrace|]. split.
  - pose proof (summary_of_success fetch f1 d w sid) as S1.
    pose proof (summary_of_success fetch f2 (store r1) (network r1) sid) as S2.
    cbv zeta in S1, S2. fold r1 in S1. fold r2 in S2.
    specialize (S1 H1). specialize (S2 H2). rewrite Hl, Htrace in S2.
    destruct (sessionListings sid d) as [|l ls] eqn:E.
    + clear S1 S2. unfold r2, r1, handler, selectListings.
      rewrite Ok1, E. cbn. unfold selectListings, sessionListings in *.
      cbn. rewrite Ok2. unfold sessionListings in E. rewrite E. reflexivity.
    + rewrite (proj1 S1), (proj1 S2) by discriminate. reflexivity.
  - pose proof (handler_rows fetch f2 (store r1) (network r1) sid) as R2.
    pose proof (handler_rows fetch f1 d w sid) as R1.
    cbv zeta in R1, R2. fold r1 in R1, R2. fold r2 in R2.
    rewrite H2, Htrace in R2. rewrite H1 in R1.
    rewrite R2, R1, app_assoc. reflexivity.
Qed.

End Batch.

End BatchFacts.

(** ** The listing source adapter *)

Module AdapterFacts.
Import JsString Store Spec ScrapeGoogleMaps.

Lemma orString_truthy a b : b <> "" -> orString a b <> "".
Proof.
  unfold orString, truthy. destruct a as [[|c s]|]; simpl; auto; discriminate.
Qed.

Lemma orNull_nonzero a q : orNull a = Some q -> Qeq_bool q 0 = false.
Proof.
  unfold orNull. destruct a as [q'|]; [|discriminate].
  destruct (Qeq_bool q' 0) eqn:E; [discriminate|]. intros [= <-]. exact E.
Qed.

(** X10.  When the adapter answers with listings, there is one listing per
    entry of [local_results] (none when the field is absent); every listing
    has a name that is not empty, and its description, rating, reviews,
    type, website, address, phone, price level, thumbnail and place id are
    never [null]. *)
Theorem adapter_listings_are_complete
    searchApiKey searchApi businessType loc listings :
  handler searchApiKey searchApi businessType loc = Listings listings ->
  exists local_results,
    searchApi (query businessType loc) (orEmpty searchApiKey)
    = Body local_results
    /\ length listings = length (default [] local_results)
    /\ Forall (fun l =>
         Scraped.name l <> ""
         /\ is_Some (Scraped.description l) /\ is_Some (Scraped.rating l)
         /\ is_Some (Scraped.reviews l) /\ is_Some (Scraped.type l)
         /\ is_Some (Scraped.website l) /\ is_Some (Scraped.address l)
         /\ is_Some (Scraped.phone l) /\ is_Some (Scraped.price_level l)
         /\ is_Some (Scraped.thumbnail l) /\ is_Some (Scraped.place_id l))
       listings.
Proof.
  unfold handler. destruct (negb (truthy searchApiKey)); [discriminate|].
  destruct (searchApi _ _) as [message|statusText|local_results];
    try discriminate.
  intros [= <-]. exists local_results. split; [reflexivity|].
  split; [apply length_map|].
  apply Forall_forall. intros l Hl. apply list_elem_of_fmap in Hl as (r & -> & _).
  cbn. split; [|repeat split; eauto].
  apply orString_truthy, orString_truthy. discriminate.
Qed.

(** X11.  The adapter never returns a coordinate equal to zero: a latitude
    or longitude of 0 in the provider's answer, like an absent one, comes
    out as [null]. *)
Theorem adapter_drops_zero_coordinates
    searchApiKey searchApi businessType loc listings :
  handler searchApiKey searchApi businessType loc = Listings listings ->
  Forall (fun l =>
    (forall q, Scraped.latitude l = Some q -> Qeq_bool q 0 = false)
    /\ (forall q, Scraped.longitude l = Some q -> Qeq_bool q 0 = false))
    listings.
Proof.
  unfold handler. destruct (negb (truthy searchApiKey)); [discriminate|].
  destruct (searchApi _ _) as [message|statusText|local_results];
    try discriminate.
  intros [= <-].
  apply Forall_forall. intros l Hl. apply list_elem_of_fmap in Hl as (r & -> & _).
  cbn. split; intros q; apply orNull_nonzero.
Qed.

(** X12.  Every failure of the adapter (no key, provider unreachable or not
    ok, unreadable body) reaches the scraper as a response that is not ok:
    a run on a started session then throws the scraper's own message,
    whatever the adapter's message was, and leaves the store as it was. *)
Theorem adapter_failure_stops_the_run
    searchApiKey searchApi businessType loc error uid now env0 s d sid :
  handler searchApiKey searchApi businessType loc = Failed error ->
  Scraper.sessionId s = Some sid ->
  Scraper.scrapeListings uid now
    (received (handler searchApiKey searchApi businessType loc)) env0 s d
  = Some (Scraper.Threw "Failed to fetch listings from SearchAPI"
            (Scraper.during now (Scraper.next env0).1 s) d).
Proof.
  intros -> Hs. unfold Scraper.scrapeListings. rewrite Hs. cbn [received].
  destruct (Scraper.next env0). reflexivity.
Qed.

End AdapterFacts.

(** ** The export utilities *)

Module ExportFacts.
Import JsString Store ExportUtils.

Lemma append_cons x (a b : string) : String x a +:+ b = String x (a +:+ b).
Proof. reflexivity. Qed.

Lemma append_nil_l (b : string) : "" +:+ b = b.
Proof. reflexivity. Qed.

Ltac push_append := repeat (rewrite append_cons || rewrite append_nil_l).

Lemma append_assoc (a b c : string) : (a +:+ b) +:+ c = a +:+ (b +:+ c).
Proof.
  induction a as [|x a IH]; push_append; [reflexivity|].
  rewrite IH. reflexivity.
Qed.

Lemma replaceAll_app c r a b :
  replaceAll c r (a +:+ b) = replaceAll c r a +:+ replaceAll c r b.
Proof.
  induction a as [|x a IH]; push_append; simpl; [reflexivity|].
  destruct (Ascii.eqb x c); rewrite IH; [rewrite append_assoc|];
    reflexivity.
Qed.

Lemma escapeXml_app a b : escapeXml (a +:+ b) = escapeXml a +:+ escapeXml b.
Proof. unfold escapeXml. rewrite !replaceAll_app. reflexivity. Qed.

Lemma escapeXml_char c : escapeXml (String c "") = escapeChar c.
Proof.
  unfold escapeChar.
  destruct (Ascii.eqb c "&") eqn:E1;
    [apply Ascii.eqb_eq in E1; subst; reflexivity|].
  destruct (Ascii.eqb c "<") eqn:E2;
    [apply Ascii.eqb_eq in E2; subst; reflexivity|].
  destruct (Ascii.eqb c ">") eqn:E3;
    [apply Ascii.eqb_eq in E3; subst; reflexivity|].
  destruct (Ascii.eqb c dq) eqn:E4;
    [apply Ascii.eqb_eq in E4; subst; reflexivity|].
  destruct (Ascii.eqb c apos) eqn:E5;
    [apply Ascii.eqb_eq in E5; subst; reflexivity|].
  unfold escapeXml. simpl. rewrite E1. simpl. rewrite E2. simpl.
  rewrite E3. simpl. rewrite E4. simpl. rewrite E5. reflexivity.
Qed.

(** The five replacements in a row do what one pass over the characters
    does: no replacement is replaced again. *)
Lemma escapeXml_one_pass s : escapeXml s = escapeEach s.
Proof.
  induction s as [|c s IH]; [reflexivity|].
  change (String c s) with (String c "" +:+ s).
  rewrite escapeXml_app, escapeXml_char, IH. reflexivity.
Qed.

Lemma occurrences_app c a b :
  occurrences c (a +:+ b) = (occurrences c a + occurrences c b)%nat.
Proof.
  induction a as [|x a IH]; push_append; simpl; [reflexivity|].
  rewrite IH. lia.
Qed.

Lemma escapeChar_cases c :
  (c = "&"%char /\ escapeChar c = "&amp;")
  \/ (c = "<"%char /\ escapeChar c = "&lt;")
  \/ (c = ">"%char /\ escapeChar c = "&gt;")
  \/ (c = dq /\ escapeChar c = "&quot;")
  \/ (c = apos /\ escapeChar c = "&apos;")
  \/ ((c <> "&"%char /\ c <> "<"%char /\ c <> ">"%char /\ c <> dq
       /\ c <> apos) /\ escapeChar c = String c "").
Proof.
  unfold escapeChar.
  destruct (Ascii.eqb c "&") eqn:E1; [apply Ascii.eqb_eq in E1; auto|].
  destruct (Ascii.eqb c "<") eqn:E2; [apply Ascii.eqb_eq in E2; auto|].
  destruct (Ascii.eqb c ">") eqn:E3; [apply Ascii.eqb_eq in E3; auto 6|].
  destruct (Ascii.eqb c dq) eqn:E4; [apply Ascii.eqb_eq in E4; auto 7|].
  destruct (Ascii.eqb c apos) eqn:E5; [apply Ascii.eqb_eq in E5; auto 8|].
  do 5 right. split; [|reflexivity].
  repeat split; apply Ascii.eqb_neq; assumption.
Qed.

Lemma escapeChar_text c x :
  x = "<"%char \/ x = ">"%char \/ x = dq \/ x = apos ->
  occurrences x (escapeChar c) = 0%nat.
Proof.
  intros Hx.
  destruct (escapeChar_cases c)
    as [[_ ->]|[[_ ->]|[[_ ->]|[[_ ->]|[[_ ->]|[N ->]]]]]];
    try (destruct Hx as [->|[->|[->| ->]]]; reflexivity).
  destruct N as (_ & N2 & N3 & N4 & N5). simpl.
  destruct Hx as [->|[->|[->| ->]]];
    (rewrite (proj2 (Ascii.eqb_neq _ _)) by assumption); reflexivity.
Qed.

Lemma escapeEach_text s x :
  x = "<"%char \/ x = ">"%char \/ x = dq \/ x = apos ->
  occurrences x (escapeEach s) = 0%nat.
Proof.
  intros Hx. induction s as [|c s IH]; [reflexivity|].
  simpl. rewrite occurrences_app, IH, escapeChar_text by exact Hx.
  reflexivity.
Qed.

(** X13.  The text [escapeXml] returns contains no [<], no [>], no double
    quote and no apostrophe, whatever the input. *)
Theorem escapeXml_leaves_no_markup s x :
  x = "<"%char \/ x = ">"%char \/ x = dq \/ x = apos ->
  occurrences x (escapeXml s) = 0%nat.
Proof. intros Hx. rewrite escapeXml_one_pass. apply escapeEach_text, Hx. Qed.

Lemma escapeEach_injective s1 s2 : escapeEach s1 = escapeEach s2 -> s1 = s2.
Proof.
  revert s2. induction s1 as [|c1 s1 IH]; intros [|c2 s2]; simpl.
  - reflexivity.
  - destruct (escapeChar_cases c2)
      as [[_ ->]|[[_ ->]|[[_ ->]|[[_ ->]|[[_ ->]|[_ ->]]]]]];
      push_append; discriminate.
  - destruct (escapeChar_cases c1)
      as [[_ ->]|[[_ ->]|[[_ ->]|[[_ ->]|[[_ ->]|[_ ->]]]]]];
      push_append; discriminate.
  - destruct (escapeChar_cases c1)
      as [[-> ->]|[[-> ->]|[[-> ->]|[[-> ->]|[[-> ->]|[N1 ->]]]]]];
    destruct (escapeChar_cases c2)
      as [[-> ->]|[[-> ->]|[[-> ->]|[[-> ->]|[[-> ->]|[N2 ->]]]]]];
    push_append; intros H; try discriminate;
    try (injection H as H; f_equal; apply IH; exact H);
    try (injection H as ? ?; exfalso; intuition congruence).
    injection H as -> H. f_equal. apply IH. exact H.
Qed.

(** X14.  [escapeXml] loses nothing: two texts with the same escaped form
    are the same text. *)
Theorem escapeXml_is_injective s1 s2 :
  escapeXml s1 = escapeXml s2 -> s1 = s2.
Proof. rewrite !escapeXml_one_pass. apply escapeEach_injective. Qed.

(** *** The CSV text *)

Lemma readQuotedBody_cell cell rest :
  startsQuoted rest = false ->
  readQuotedBody
    (replaceAll dq (String dq (String dq "")) cell +:+ String dq rest)
  = Some (cell, rest).
Proof.
  intros Hr. induction cell as [|x cell IH]; simpl.
  - push_append. simpl. rewrite ?Ascii.eqb_refl.
    destruct rest as [|c rest]; [reflexivity|].
    simpl in Hr. rewrite Hr. reflexivity.
  - destruct (Ascii.eqb x dq) eqn:E; push_append; simpl.
    + apply Ascii.eqb_eq in E. subst x.
      rewrite ?Ascii.eqb_refl, IH. reflexivity.
    + rewrite E, IH. reflexivity.
Qed.

Lemma readQuoted_cell cell rest :
  startsQuoted rest = false ->
  readQuoted (csvCell cell +:+ rest) = Some (cell, rest).
Proof.
  intros Hr. unfold csvCell. rewrite append_assoc. push_append. simpl.
  rewrite ?Ascii.eqb_refl. apply readQuotedBody_cell, Hr.
Qed.

Lemma readFields_more n c tail :
  readFields (S (S n)) (csvCell c +:+ String "," tail)
  = prod_map (cons c) id <$> readFields (S n) tail.
Proof.
  cbn [readFields]. rewrite readQuoted_cell by reflexivity.
  rewrite Ascii.eqb_refl. reflexivity.
Qed.

Lemma readFields_cells cells rest :
  startsQuoted rest = false ->
  readFields (length cells)
    (String.concat "," (map csvCell cells) +:+ rest)
  = Some (cells, rest).
Proof.
  intros Hr. induction cells as [|c cells IH]; [reflexivity|].
  destruct cells as [|c' cells].
  - cbn [length map String.concat readFields].
    rewrite readQuoted_cell by exact Hr. reflexivity.
  - change (String.concat "," (map csvCell (c :: c' :: cells)))
      with (csvCell c +:+ "," +:+ String.concat "," (map csvCell (c' :: cells))).
    rewrite !append_assoc. push_append.
    change (length (c :: c' :: cells)) with (S (S (length cells))).
    rewrite readFields_more.
    change (S (length cells)) with (length (c' :: cells)).
    rewrite IH. reflexivity.
Qed.

Lemma append_nil_r (a : string) : a +:+ "" = a.
Proof.
  induction a as [|x a IH]; push_append; [reflexivity|].
  rewrite IH. reflexivity.
Qed.

Lemma concat_empty_cons x xs :
  String.concat "" (x :: xs) = x +:+ String.concat "" xs.
Proof.
  destruct xs; cbn [String.concat]; [rewrite append_nil_r|push_append];
    reflexivity.
Qed.

Lemma concat_cons_map {A} sep (f : A -> string) h ls :
  String.concat sep (h :: map f ls)
  = h +:+ String.concat "" (map (fun l => sep +:+ f l) ls).
Proof.
  revert h. induction ls as [|l ls IH]; intros h.
  - cbn [map String.concat]. rewrite append_nil_r. reflexivity.
  - change (String.concat sep (h :: map f (l :: ls)))
      with (h +:+ sep +:+ String.concat sep (f l :: map f ls)).
    rewrite IH. cbn [map]. rewrite concat_empty_cons, append_assoc.
    reflexivity.
Qed.

Section Content.
Variable numberToString : Q -> string.

(** X15.  The CSV text is the line of the headers followed, for every
    listing in order, by a line feed and the line of the listing; and the
    line of a listing is read back, by a reader of quoted fields, as the six
    cells of that listing, whatever commas, double quotes or line feeds the
    cells contain. *)
Theorem csv_lines_read_back :
  (forall listings,
     csvContent numberToString listings
     = String.concat "," headers
       +:+ String.concat ""
             (map (fun l =>
                     String lf (String.concat ","
                                  (map csvCell (row numberToString l))))
                  listings))
  /\ (forall l rest,
        startsQuoted rest = false ->
        readFields 6
          (String.concat "," (map csvCell (row numberToString l)) +:+ rest)
        = Some (row numberToString l, rest)).
Proof.
  split.
  - intros listings. unfold csvContent. rewrite map_map.
    rewrite (concat_cons_map (String lf "")
               (fun l => String.concat "," (map csvCell (row numberToString l)))).
    reflexivity.
  - intros l rest Hr. apply (readFields_cells (row numberToString l) rest Hr).
Qed.

(** *** The spreadsheet *)

Lemma occurrences_concat {A} c (f : A -> string) n ls :
  (forall l, occurrences c (f l) = n) ->
  occurrences c (String.concat "" (map f ls)) = (n * length ls)%nat.
Proof.
  intros Hf. induction ls as [|l ls IH]; [simpl; lia|].
  cbn [map]. rewrite concat_empty_cons, occurrences_app, Hf, IH.
  cbn [length]. lia.
Qed.

Lemma xmlCell_tags type cell :
  occurrences "<" type = 0%nat ->
  occurrences "<" (xmlCell type cell) = 4%nat.
Proof.
  intros Ht. unfold xmlCell, attr. rewrite !occurrences_app.
  rewrite escapeXml_one_pass, escapeEach_text by auto.
  push_append. simpl. rewrite Ht. reflexivity.
Qed.

Lemma xmlCells_tags index cells :
  occurrences "<" (xmlCells index cells) = (4 * length cells)%nat.
Proof.
  revert index. induction cells as [|cell cells IH]; intros index;
    [reflexivity|].
  cbn [xmlCells length]. rewrite occurrences_app, IH, xmlCell_tags.
  - lia.
  - destruct (_ && _); reflexivity.
Qed.

Lemma xmlRow_tags l :
  occurrences "<" (xmlRow (row numberToString l)) = 26%nat.
Proof.
  unfold xmlRow. rewrite !occurrences_app, xmlCells_tags. reflexivity.
Qed.

(** X16.  In the spreadsheet the number of [<] is 8 for the document, 26
    for the row of the headers and 26 for the row of each listing: whatever
    the cells contain, none of their text is read as markup. *)
Theorem xml_tags_come_from_the_sheet_only listings :
  occurrences "<" (xmlContent numberToString listings)
  = (8 + 26 * S (length listings))%nat.
Proof.
  unfold xmlContent. rewrite !occurrences_app, map_map.
  rewrite (occurrences_concat "<" _ 26) by apply xmlRow_tags.
  unfold attr. rewrite !occurrences_app. push_append.
  change (occurrences "<" xmlHeaderRow) with 26%nat.
  simpl occurrences. lia.
Qed.

End Content.

End ExportFacts.

(** ** The email check *)

Module SqlFacts.
Import JsString Sql.

Lemma like_plain p s : plainText p -> like p s = true <-> s = p.
Proof.
  revert s. induction p as [|c p IH]; intros s Hp.
  - destruct s; simpl; split; congruence.
  - destruct Hp as [[N1 N2] Hp]. simpl.
    rewrite (proj2 (Ascii.eqb_neq _ _) N1), (proj2 (Ascii.eqb_neq _ _) N2).
    destruct s as [|x s]; [split; discriminate|].
    rewrite andb_true_iff, Ascii.eqb_eq, (IH s Hp).
    split; [intros [-> ->]; reflexivity|intros [= -> ->]; auto].
Qed.

Lemma like_percent p s :
  like (String "%" p) s
  = like p s
    || match s with
       | EmptyString => false
       | String _ s' => like (String "%" p) s'
       end.
Proof. destruct s; reflexivity. Qed.

Lemma like_suffix p s :
  plainText p ->
  like (String "%" p) s = true <-> exists a, s = a +:+ p.
Proof.
  intros Hp. induction s as [|x s IH]; rewrite like_percent, orb_true_iff.
  - rewrite (like_plain p "" Hp). split.
    + intros [<-|H]; [exists ""; reflexivity|discriminate].
    + intros ([|y a] & H); [left; exact H|discriminate].
  - rewrite (like_plain p (String x s) Hp), IH. split.
    + intros [<-|[a ->]]; [exists ""; reflexivity|].
      exists (String x a). reflexivity.
    + intros ([|y a] & H); [left; exact H|].
      right. exists a. injection H as _ H. exact H.
Qed.

(** X17.  [is_rategain_email] accepts exactly the addresses that end with
    [@rategain.com] when letter case is ignored, whatever stands before,
    nothing included; a [NULL] address is neither accepted nor refused. *)
Theorem is_rategain_email_accepts_the_suffix :
  (forall email,
     is_rategain_email (Some email) = Some true
     <-> exists a, toLowerCase email = a +:+ "@rategain.com")
  /\ is_rategain_email None = None.
Proof.
  split; [|reflexivity]. intros email.
  unfold is_rategain_email, ilike. cbn [fmap option_fmap option_map].
  change (toLowerCase "%@rategain.com") with (String "%" "@rategain.com").
  rewrite <- (like_suffix "@rategain.com" (toLowerCase email))
    by (cbv [plainText plain]; repeat split; discriminate).
  generalize (like (String "%" "@rategain.com") (toLowerCase email)).
  intros b. split; congruence.
Qed.

End SqlFacts.

(** ** The search form and the history panel *)

Module FormFacts.
Import JsString Store Blank SearchForm SearchHistory.

Lemma blank_trimStart s : blank (trimStart s) = blank s.
Proof.
  induction s as [|c s IH]; simpl; [reflexivity|].
  destruct (isSpace c) eqn:E; [exact IH|]. simpl. rewrite E. reflexivity.
Qed.

Lemma isEmpty_trimEnd s : isEmpty (trimEnd s) = blank s.
Proof.
  induction s as [|c s IH]; simpl; [reflexivity|].
  rewrite IH. destruct (isSpace c), (blank s); reflexivity.
Qed.

Lemma isEmpty_trim s : isEmpty (trim s) = blank s.
Proof. unfold trim. rewrite isEmpty_trimEnd. apply blank_trimStart. Qed.

Lemma blank_app a b : blank (a +:+ b) = blank a && blank b.
Proof.
  induction a as [|c a IH]; [reflexivity|].
  change (String c a +:+ b) with (String c (a +:+ b)). simpl.
  rewrite IH, andb_assoc. reflexivity.
Qed.

Lemma blank_toLowerCase s : blank (toLowerCase s) = blank s.
Proof.
  induction s as [|c s IH]; simpl; [reflexivity|].
  rewrite JsStringFacts.isSpace_lowerChar, IH. reflexivity.
Qed.

Lemma truthy_trim s : truthy (Some (trim s)) = negb (blank s).
Proof. unfold truthy. rewrite isEmpty_trim. reflexivity. Qed.

(** X18.  The form starts a search exactly when the business type, the city
    and the country each have a character that is no white space; the search
    is then for the business type as typed and the location
    [city, country], and neither side of the normalized query the scraper
    builds from them is empty. *)
Theorem a_submitted_search_has_no_empty_side businessType city country :
  (handleSubmit businessType city country = None
   <-> blank businessType = true \/ blank city = true
       \/ blank country = true)
  /\ (forall bt loc,
        handleSubmit businessType city country = Some (bt, loc) ->
        bt = businessType /\ loc = city +:+ ", " +:+ country
        /\ trim (toLowerCase bt) <> "" /\ trim (toLowerCase loc) <> "").
Proof.
  unfold handleSubmit. rewrite !truthy_trim.
  destruct (blank businessType) eqn:Eb, (blank city) eqn:Ec,
           (blank country) eqn:Ek; cbn [negb andb];
    (split; [split; [intros; auto; discriminate
                    |intros [?|[?|?]]; try reflexivity; discriminate]|]);
    try (intros bt loc; discriminate).
  intros bt loc [= <- <-]. split; [reflexivity|]. split; [reflexivity|].
  assert (Hne : forall s, blank s = false -> trim (toLowerCase s) <> "").
  { intros s Hs E. apply (f_equal isEmpty) in E.
    rewrite isEmpty_trim, blank_toLowerCase, Hs in E. discriminate. }
  split; apply Hne; [exact Eb|].
  rewrite blank_app, Ec. reflexivity.
Qed.

Section FormatDate.
Variable numberToString : Z -> string.
Variable toLocaleDateString : Instant -> string.

(** X19.  The age label of the history panel, by the age [now - date] in
    milliseconds: below one hour, future dates included, it is
    [Just now]; from one hour to below 24 hours it counts the whole hours,
    1 to 23; from 24 to below 48 hours it is [Yesterday]; from 48 hours to
    below seven days it counts the whole days, 2 to 6; from seven days on it
    is the date. *)
Theorem formatDate_by_age now date :
  let age := now - date in
  (age < 3600000 ->
   formatDate numberToString toLocaleDateString now date = "Just now")
  /\ (3600000 <= age < 86400000 ->
      formatDate numberToString toLocaleDateString now date
      = numberToString (age / 3600000) +:+ "h ago"
      /\ 1 <= age / 3600000 <= 23)
  /\ (86400000 <= age < 172800000 ->
      formatDate numberToString toLocaleDateString now date = "Yesterday")
  /\ (172800000 <= age < 604800000 ->
      formatDate numberToString toLocaleDateString now date
      = numberToString (age / 3600000 / 24) +:+ " days ago"
      /\ 2 <= age / 3600000 / 24 <= 6)
  /\ (604800000 <= age ->
      formatDate numberToString toLocaleDateString now date
      = toLocaleDateString date).
Proof.
  intros age. unfold formatDate.
  change (1000 * 60 * 60) with 3600000. fold age.
  assert (Hh := Z.div_mod age 3600000 ltac:(lia)).
  assert (Hhr := Z.mod_pos_bound age 3600000 ltac:(lia)).
  assert (Hd := Z.div_mod (age / 3600000) 24 ltac:(lia)).
  assert (Hdr := Z.mod_pos_bound (age / 3600000) 24 ltac:(lia)).
  split; [|split; [|split; [|split]]]; intros Ha;
    repeat match goal with
           | |- context [?a <? ?b] => destruct (Z.ltb_spec a b)
           | |- context [?a =? ?b] => destruct (Z.eqb_spec a b)
           end; repeat split; try reflexivity; try lia.
Qed.

End FormatDate.

End FormFacts.

(** ** The properties above on concrete runs *)

Module MoreRuns.
Import JsString Store Scraper Spec Turns Rows Cases MoreCases.


Lemma total_records_is_bounded_witness :
  exists t,
    totalRecordsOf 0%nat (db refusedEnd) = Some t
    /\ 0 <= t <= Z.of_nat (length (default [] (Some cafes))).
Proof.
  apply (RunFacts.total_records_is_bounded 1%nat 5000 (Some cafes)
           [quiet; quiet; quiet; refused] started.1.2 started.2 refusedEnd
           (Some 0%nat) 0%nat).
  - reflexivity.
  - vm_compute. reflexivity.
  - vm_compute. reflexivity.
Defined.


Lemma a_completed_search_is_found_again_witness :
  checkCache 1%nat true 6000 (db quietEnd) " CAFE" "paris "
  = if bool_decide (6000 < 5000 + sevenDays) then Some 0%nat else None.
Proof.
  apply (RunFacts.a_completed_search_is_found_again 1%nat true 5000
           "Cafe" "Paris" (Some cafes) [] Store.empty create 0%nat
           started.1.2 started.2 quietEnd (Some 0%nat) " CAFE" "paris " 6000).
  - vm_compute. reflexivity.
  - constructor.
  - vm_compute. reflexivity.
  - vm_compute. reflexivity.
  - vm_compute. reflexivity.
Defined.

Lemma a_paused_loop_only_waits_witness :
  forLoop 1%nat 5000 0%nat cafes 0
    (pausedAt [quiet; pauseClicked; resumeClicked])
  = forLoop 1%nat 5000 0%nat cafes 0
      {| scraper := fold_left (fun s tk => during 5000 tk s)
                      [quiet; pauseClicked] pausedScraper;
         db := started.2; env := [resumeClicked]; progress := [] |}
  /\ isPaused (fold_left (fun s tk => during 5000 tk s)
                 [quiet; pauseClicked] pausedScraper) = true
  /\ aborted (fold_left (fun s tk => during 5000 tk s)
                 [quiet; pauseClicked] pausedScraper) = false.
Proof.
  apply (RunFacts.a_paused_loop_only_waits 1%nat 5000 0%nat
           (scraped "Cafe A" (Some "1 Rue A") None)
           [scraped "Cafe B" (Some "2 Rue B") None] 0
           (pausedAt [quiet; pauseClicked; resumeClicked])
           [quiet; pauseClicked] [resumeClicked]).
  - reflexivity.
  - reflexivity.
  - reflexivity.
  - repeat constructor; simpl; intros H; inversion H; subst;
      match goal with
      | H' : _ ∈ [] |- _ => inversion H'
      end.
Defined.

Lemma stop_while_paused_ends_the_loop_witness :
  forLoop 1%nat 5000 0%nat cafes 0 (pausedAt [stopClicked; quiet])
  = Some {| scraper := during 5000 stopClicked pausedScraper;
            db := started.2; env := [quiet]; progress := [] |}.
Proof.
  apply (RunFacts.stop_while_paused_ends_the_loop 1%nat 5000 0%nat
           (scraped "Cafe A" (Some "1 Rue A") None)
           [scraped "Cafe B" (Some "2 Rue B") None] 0
           (pausedAt [stopClicked; quiet]) stopClicked [quiet]).
  - reflexivity.
  - reflexivity.
  - exists false. reflexivity.
  - reflexivity.
  - left.
Defined.

Lemma a_second_run_writes_the_rows_again_witness :
  ProcessListings.trace secondRun = ProcessListings.trace firstRun
  /\ ProcessListings.response secondRun = ProcessListings.response firstRun
  /\ processed_listings (ProcessListings.store secondRun)
     = processed_listings acme
       ++ omap ProcessListings.pushed (ProcessListings.trace firstRun)
       ++ omap ProcessListings.pushed (ProcessListings.trace firstRun).
Proof.
  apply (BatchFacts.a_second_run_writes_the_rows_again acmeLive
           ProcessListings.noFaults ProcessListings.noFaults acme tt 0%nat).
  - intros w w' r. reflexivity.
  - vm_compute. reflexivity.
  - vm_compute. reflexivity.
Defined.

Lemma adapter_listings_are_complete_witness :
  exists local_results,
    provider (ScrapeGoogleMaps.query "cafe" "quito") (orEmpty (Some "k"))
    = ScrapeGoogleMaps.Body local_results
    /\ length equatorListings = length (default [] local_results)
    /\ Forall (fun l =>
         Scraped.name l <> ""
         /\ is_Some (Scraped.description l) /\ is_Some (Scraped.rating l)
         /\ is_Some (Scraped.reviews l) /\ is_Some (Scraped.type l)
         /\ is_Some (Scraped.website l) /\ is_Some (Scraped.address l)
         /\ is_Some (Scraped.phone l) /\ is_Some (Scraped.price_level l)
         /\ is_Some (Scraped.thumbnail l) /\ is_Some (Scraped.place_id l))
       equatorListings.
Proof.
  apply (AdapterFacts.adapter_listings_are_complete (Some "k") provider
           "cafe" "quito" equatorListings).
  vm_compute. reflexivity.
Defined.

Lemma adapter_drops_zero_coordinates_witness :
  Forall (fun l =>
    (forall q, Scraped.latitude l = Some q -> Qeq_bool q 0 = false)
    /\ (forall q, Scraped.longitude l = Some q -> Qeq_bool q 0 = false))
    equatorListings.
Proof.
  apply (AdapterFacts.adapter_drops_zero_coordinates (Some "k") provider
           "cafe" "quito" equatorListings).
  vm_compute. reflexivity.
Defined.

Lemma adapter_failure_stops_the_run_witness :
  scrapeListings 1%nat 5000
    (ScrapeGoogleMaps.received
       (ScrapeGoogleMaps.handler None provider "cafe" "quito"))
    [quiet] started.1.2 started.2
  = Some (Threw "Failed to fetch listings from SearchAPI"
            (during 5000 (next [quiet]).1 started.1.2) started.2).
Proof.
  apply (AdapterFacts.adapter_failure_stops_the_run None provider "cafe"
           "quito" "SearchAPI key not configured" 1%nat 5000 [quiet]
           started.1.2 started.2 0%nat).
  - vm_compute. reflexivity.
  - reflexivity.
Defined.

Lemma escapeXml_leaves_no_markup_witness :
  ExportUtils.occurrences "<"%char
    (ExportUtils.escapeXml "<b>Tom & Jerry's</b>") = 0%nat.
Proof.
  apply (ExportFacts.escapeXml_leaves_no_markup "<b>Tom & Jerry's</b>"
           "<"%char).
  left. reflexivity.
Defined.

Lemma escapeXml_is_injective_witness : "a&lt;b" = "a&lt;b".
Proof.
  apply (ExportFacts.escapeXml_is_injective "a&lt;b" "a&lt;b").
  reflexivity.
Defined.

Lemma run_without_processing_witness :
  aborted (scraper stoppedEnd) = true
  /\ search_cache (db stoppedEnd) = search_cache started.2
  /\ forall x,
       statusOf x (db stoppedEnd) = statusOf x started.2
       /\ completedAtOf x (db stoppedEnd) = completedAtOf x started.2.
Proof.
  apply (ScraperFacts.run_without_processing 1%nat 5000 twoCafes
           [quiet; quiet; stopClicked] started.1.2 started.2 stoppedEnd).
  vm_compute. reflexivity.
Defined.


End MoreRuns.
